(** * JUnit reporter of behave: a shallow embedding of
      [behave/reporter/junit.py] and the properties of its report builder
      and of its CDATA-aware XML serializer. *)

From Stdlib Require Import String Ascii List Arith Lia Bool ZArith.
From Stdlib Require Import PrimFloat SpecFloat FloatOps DecimalString DecimalNat.
Import ListNotations.
Open Scope string_scope.

(* ================================================================== *)
(** * Python values used by the reporter *)
(* ================================================================== *)

(** Strings are sequences of characters; encodings are not modelled. *)
Module Py.

Definition nl : string := String "010"%char EmptyString.
Definition dquote : string := String "034"%char EmptyString.
Definition esc : ascii := "027"%char.

(** Outcome of a procedure that may stop on a failed [assert]. *)
Inductive result (A : Type) : Type :=
| Ok (a : A)
| AssertionFailed (msg : string).
Arguments Ok {A} a.
Arguments AssertionFailed {A} msg.

Definition bind {A B : Type} (m : result A) (k : A -> result B) : result B :=
  match m with
  | Ok a => k a
  | AssertionFailed msg => AssertionFailed msg
  end.

(** [assert cond, msg] *)
Definition assert_ (cond : bool) (msg : string) : result unit :=
  if cond then Ok tt else AssertionFailed msg.

(** Truth value of an optional string: [None] and [''] are false. *)
Definition truthy (o : option string) : bool :=
  match o with
  | Some (String _ _) => true
  | _ => false
  end.

(** [a or b] on optional strings, with a string default. *)
Definition or_else (a : option string) (b : string) : string :=
  match a with
  | Some (String c s) => String c s
  | _ => b
  end.

(** [str(x)] and ['%s' % x] for a value that is a string or [None]. *)
Definition str_opt (o : option string) : string :=
  match o with
  | Some s => s
  | None => "None"
  end.

(** [str(n)] for a non-negative integer. *)
Definition str_int (n : nat) : string :=
  NilZero.string_of_uint (Nat.to_uint n).

(** [s[n:]] *)
Fixpoint drop (n : nat) (s : string) : string :=
  match n, s with
  | O, _ => s
  | S _, EmptyString => EmptyString
  | S n', String _ s' => drop n' s'
  end.

(** [s[:n]] *)
Fixpoint take (n : nat) (s : string) : string :=
  match n, s with
  | O, _ => EmptyString
  | S _, EmptyString => EmptyString
  | S n', String c s' => String c (take n' s')
  end.

(** [s.startswith(p)] *)
Definition startswith (s p : string) : bool := String.prefix p s.

(** [s.replace(c, r)] for a pattern [c] of one character. *)
Fixpoint replace (c : ascii) (r : string) (s : string) : string :=
  match s with
  | EmptyString => EmptyString
  | String a s' =>
      if Ascii.eqb a c then r ++ replace c r s'
      else String a (replace c r s')
  end.

(** The part of [s] before its last [sep], when [sep] occurs in [s]. *)
Fixpoint before_last (sep : ascii) (s : string) : option string :=
  match s with
  | EmptyString => None
  | String a s' =>
      match before_last sep s' with
      | Some h => Some (String a h)
      | None => if Ascii.eqb a sep then Some EmptyString else None
      end
  end.

(** The part of [s] after its last [sep], when [sep] occurs in [s]. *)
Fixpoint after_last (sep : ascii) (s : string) : option string :=
  match s with
  | EmptyString => None
  | String a s' =>
      match after_last sep s' with
      | Some t => Some t
      | None => if Ascii.eqb a sep then Some s' else None
      end
  end.

(** [s.rsplit(sep, 1)[0]] *)
Definition rsplit1_head (sep : ascii) (s : string) : string :=
  match before_last sep s with
  | Some h => h
  | None => s
  end.

(** [os.path.split(p)[1]] of [posixpath]: what follows the last slash. *)
Definition os_path_split_tail (p : string) : string :=
  match after_last "/"%char p with
  | Some t => t
  | None => p
  end.

Fixpoint spaces (n : nat) : string :=
  match n with
  | O => EmptyString
  | S n' => String " "%char (spaces n')
  end.

(** ['%12s' % s] and the like: right-justified in [width] columns. *)
Definition rjust (width : nat) (s : string) : string :=
  spaces (width - String.length s) ++ s.

(** An exception object: its class name, whether it is an instance of
    [AssertionError] (the class or a subclass), and its [str()]. *)
Record Exception : Type := mkException {
  exc_class_name : string;
  exc_is_assertion : bool;
  exc_str : string
}.

(** [isinstance(e, (AssertionError, type(None)))] *)
Definition isinstance_AssertionError_or_None (e : option Exception) : bool :=
  match e with
  | None => true
  | Some x => exc_is_assertion x
  end.

(** [e.__class__.__name__]; the class of [None] is [NoneType]. *)
Definition class_name (e : option Exception) : string :=
  match e with
  | None => "NoneType"
  | Some x => exc_class_name x
  end.

(** [str(e)]; [str(None)] is ['None']. *)
Definition str_exc (e : option Exception) : string :=
  match e with
  | None => "None"
  | Some x => exc_str x
  end.

(** [s.endswith(c)] for a suffix [c] of one character. *)
Fixpoint endswith_char (c : ascii) (s : string) : bool :=
  match s with
  | EmptyString => false
  | String a EmptyString => Ascii.eqb a c
  | String _ s' => endswith_char c s'
  end.

(** [os.path.join(a, b)] of [posixpath]. *)
Definition os_path_join (a b : string) : string :=
  if startswith b "/" then b
  else if String.eqb a "" || endswith_char "/"%char a then a ++ b
  else a ++ "/" ++ b.

End Py.

(** Python 2.7 on floats, which are IEEE binary64 numbers: the built-ins
    [round(x, ndigits)] and [str(x)], computed by exact integer
    arithmetic on the value [m * 2^e] of the float. *)
Module PyFloat.

Definition digits_of (n : Z) : string :=
  NilZero.string_of_uint (N.to_uint (Z.to_N n)).

Fixpoint zeros (n : nat) : string :=
  match n with
  | O => EmptyString
  | S n' => String "0"%char (zeros n')
  end.

(** The integer nearest to [num / den], ties away from zero, for
    [0 <= num] and [0 < den]. *)
Definition div_half_away (num den : Z) : Z :=
  ((2 * num + den) / (2 * den))%Z.

(** The integer nearest to [num / den], ties to the even one. *)
Definition div_half_even (num den : Z) : Z :=
  let q := (num / den)%Z in
  match (2 * (num mod den) ?= den)%Z with
  | Lt => q
  | Gt => (q + 1)%Z
  | Eq => if Z.even q then q else (q + 1)%Z
  end.

(** The value [m * 2^e] as a fraction. *)
Definition fraction (m : positive) (e : Z) : Z * Z :=
  if (0 <=? e)%Z then ((Z.pos m * 2 ^ e)%Z, 1%Z)
  else (Z.pos m, (2 ^ (- e))%Z).

(** [round(x, ndigits)] for [ndigits >= 0]: [x] is rounded to the
    nearest multiple of [10^-ndigits], halves away from zero, and the
    result is the float nearest to that decimal number.  Zeros,
    infinities and NaN are returned as they are. *)
Definition round (x : float) (ndigits : N) : float :=
  match Prim2SF x with
  | S754_finite s m e =>
      let '(num, den) := fraction m e in
      let scale := (10 ^ Z.of_N ndigits)%Z in
      match div_half_away (num * scale) den with
      | Z.pos q =>
          SF2Prim (SFdiv prec emax (S754_finite s q 0)
                     (S754_finite false (Z.to_pos scale) 0))
      | _ => SF2Prim (S754_zero s)
      end
  | _ => x
  end.

(** The position of the decimal point of [num / den > 0]: the [d] with
    [10^(d-1) <= num / den < 10^d]; [fuel] bounds the search. *)
Fixpoint point_up (fuel : nat) (num den : Z) (d : Z) : Z :=
  match fuel with
  | O => d
  | S fuel' =>
      if (num <? den * 10 ^ d)%Z then d else point_up fuel' num den (d + 1)%Z
  end.

Fixpoint point_down (fuel : nat) (num den : Z) (d : Z) : Z :=
  match fuel with
  | O => d
  | S fuel' =>
      if (den <=? num * 10 ^ (1 - d))%Z then d
      else point_down fuel' num den (d - 1)%Z
  end.

Definition decimal_point (num den : Z) : Z :=
  if (den <=? num)%Z then point_up 400 num den 1%Z
  else point_down 400 num den 0%Z.

Fixpoint strip_zeros (rev_digits : list ascii) : list ascii :=
  match rev_digits with
  | c :: (_ :: _) as rest =>
      if Ascii.eqb c "0"%char then strip_zeros rest else rev_digits
  | _ => rev_digits
  end.

(** The [precision] significant digits of [num / den > 0], correctly
    rounded, without trailing zeros, and the position of the point. *)
Definition significant (precision : Z) (num den : Z) : string * Z :=
  let d := decimal_point num den in
  let r := if (d <=? precision)%Z
           then div_half_even (num * 10 ^ (precision - d)) den
           else div_half_even num (den * 10 ^ (d - precision)) in
  let '(r, d) := if (r =? 10 ^ precision)%Z
                 then ((10 ^ (precision - 1))%Z, (d + 1)%Z) else (r, d) in
  (string_of_list_ascii
     (rev (strip_zeros (rev (list_ascii_of_string (digits_of r))))), d).

Definition exponent (e : Z) : string :=
  let a := digits_of (Z.abs e) in
  "e" ++ (if (e <? 0)%Z then "-" else "+")
      ++ (if (String.length a <? 2)%nat then "0" ++ a else a).

(** The layout of [str]: the format ['g'] of the interpreter with a
    [.0] added to integers; exponent notation for values below
    [0.0001] and from [1e11] on. *)
Definition format_g (precision : Z) (digits : string) (decpt : Z) : string :=
  if ((decpt <=? -4) || (precision - 1 <? decpt))%Z then
    match digits with
    | String d1 EmptyString => String d1 (exponent (decpt - 1))
    | String d1 more => String d1 ("." ++ more ++ exponent (decpt - 1))
    | EmptyString => EmptyString
    end
  else if (decpt <=? 0)%Z then "0." ++ zeros (Z.to_nat (- decpt)) ++ digits
  else if (Z.of_nat (String.length digits) <=? decpt)%Z
  then digits ++ zeros (Z.to_nat decpt - String.length digits) ++ ".0"
  else
    substring 0 (Z.to_nat decpt) digits ++ "."
      ++ substring (Z.to_nat decpt) (String.length digits - Z.to_nat decpt) digits.

(** [str(x)]: twelve significant digits, correctly rounded. *)
Definition str (x : float) : string :=
  match Prim2SF x with
  | S754_nan => "nan"
  | S754_infinity s => if s then "-inf" else "inf"
  | S754_zero s => if s then "-0.0" else "0.0"
  | S754_finite s m e =>
      let '(num, den) := fraction m e in
      let '(digits, decpt) := significant 12 num den in
      (if s then "-" else "") ++ format_g 12 digits decpt
  end.

End PyFloat.

Notation "x <- m ;; k" := (Py.bind m (fun x => k))
  (at level 61, m at next level, right associativity).

(* ================================================================== *)
(** * xml.etree.ElementTree (Python 2.7), as far as the reporter uses it *)
(* ================================================================== *)

Module ElementTree.

(** An element: tag, attribute dictionary (in insertion order), text,
    children and tail. *)
#[warning="-register-all"]
Inductive Element : Type :=
  mkElement {
    tag : string;
    attrib : list (string * string);
    text : option string;
    children : list Element;
    tail : option string
  }.

(** [ElementTree.Element(tag)] *)
Definition Element_ (t : string) : Element := mkElement t [] None [] None.

Fixpoint dict_set (k v : string) (d : list (string * string))
  : list (string * string) :=
  match d with
  | [] => [(k, v)]
  | (k', v') :: d' =>
      if String.eqb k' k then (k, v) :: d' else (k', v') :: dict_set k v d'
  end.

Fixpoint dict_get (k : string) (d : list (string * string)) : option string :=
  match d with
  | [] => None
  | (k', v') :: d' => if String.eqb k' k then Some v' else dict_get k d'
  end.

(** [elem.set(key, value)] *)
Definition set (e : Element) (k v : string) : Element :=
  mkElement (tag e) (dict_set k v (attrib e)) (text e) (children e) (tail e).

(** [elem.get(key)] *)
Definition get (e : Element) (k : string) : option string :=
  dict_get k (attrib e).

(** [elem.append(child)] *)
Definition append (e child : Element) : Element :=
  mkElement (tag e) (attrib e) (text e) (children e ++ [child]) (tail e).

(** [elem.text = value] *)
Definition set_text (e : Element) (t : option string) : Element :=
  mkElement (tag e) (attrib e) t (children e) (tail e).

(** [_escape_cdata(text, encoding)] *)
Definition _escape_cdata (s : string) : string :=
  Py.replace ">"%char "&gt;"
    (Py.replace "<"%char "&lt;" (Py.replace "&"%char "&amp;" s)).

(** [_escape_attrib(text, encoding)] *)
Definition _escape_attrib (s : string) : string :=
  Py.replace "010"%char "&#10;"
    (Py.replace "034"%char "&quot;"
       (Py.replace ">"%char "&gt;"
          (Py.replace "<"%char "&lt;" (Py.replace "&"%char "&amp;" s)))).

(** [sorted(elem.items())]: attribute keys are distinct, so the order
    is the order of the keys. *)
Fixpoint insert_item (x : string * string) (l : list (string * string))
  : list (string * string) :=
  match l with
  | [] => [x]
  | y :: l' =>
      if String.leb (fst x) (fst y) then x :: y :: l'
      else y :: insert_item x l'
  end.

Definition sorted_items (d : list (string * string)) : list (string * string) :=
  fold_right insert_item [] d.

Definition write_attrib (kv : string * string) : string :=
  " " ++ fst kv ++ "=" ++ Py.dquote ++ _escape_attrib (snd kv) ++ Py.dquote.

Definition write_opt_text (t : option string) : string :=
  match t with
  | Some s => _escape_cdata s
  | None => EmptyString
  end.

(** The library's [_serialize_xml] for an element with a plain tag and
    no namespaces.  Children are written through the module-level
    [_serialize_xml], here the argument [self]. *)
Definition orig_serialize_xml (self : Element -> string) (elem : Element)
  : string :=
  "<" ++ tag elem
    ++ String.concat "" (map write_attrib (sorted_items (attrib elem)))
    ++ (if Py.truthy (text elem) || negb (Nat.eqb (List.length (children elem)) 0)
        then ">" ++ write_opt_text (text elem)
               ++ String.concat "" (map self (children elem))
               ++ "</" ++ tag elem ++ ">"
        else " />")
    ++ write_opt_text (tail elem).

End ElementTree.

Import ElementTree.

(* ================================================================== *)
(** * The result model read by the reporter ([behave.model]) *)
(* ================================================================== *)

Module Step.
Record t : Type := mk {
  keyword : string;
  name : string;
  status : string;
  exception : option Py.Exception;
  error_message : string;
  (** the location descriptor, in its string form *)
  location : string
}.
End Step.

Module Scenario.
Record t : Type := mk {
  name : option string;
  status : string;
  duration : float;
  (** what [for step in scenario] yields, in order *)
  all_steps : list Step.t;
  stdout : option string;
  stderr : option string
}.
End Scenario.

Module ScenarioOutline.
Record t : Type := mk {
  (** what [for scenario in scenario_outline] yields, in order *)
  scenarios : list Scenario.t
}.
End ScenarioOutline.

(** What [for scenario in feature] yields: a scenario, or a scenario
    outline ([isinstance(scenario, ScenarioOutline)]). *)
Inductive FeatureItem : Type :=
| IsScenario (scenario : Scenario.t)
| IsScenarioOutline (scenario_outline : ScenarioOutline.t).

Module Feature.
Record t : Type := mk {
  name : option string;
  filename : string;
  duration : float;
  scenarios : list FeatureItem
}.
End Feature.

Module Config.
Record t : Type := mk {
  paths : list string;
  junit_directory : string
}.
End Config.

(** ** FeatureReportData *)

Module FeatureReportData.

Record t : Type := mk {
  feature : Feature.t;
  filename : string;
  classname : option string;
  testcases : list Element;
  counts_tests : nat;
  counts_errors : nat;
  counts_failed : nat;
  counts_skipped : nat
}.

(** [FeatureReportData.__init__(feature, filename, classname)] *)
Definition init (feature : Feature.t) (filename : string)
    (classname : option string) : t :=
  let classname :=
    if negb (Py.truthy classname) && Py.truthy (Some filename)
    then Some (Py.replace "/"%char "." filename)
    else classname in
  mk feature filename classname [] 0 0 0 0.

(** [report.counts_tests += 1] and its siblings, [report.testcases.append] *)
Definition incr_tests (r : t) : t :=
  mk (feature r) (filename r) (classname r) (testcases r)
     (counts_tests r + 1) (counts_errors r) (counts_failed r) (counts_skipped r).

Definition incr_errors (r : t) : t :=
  mk (feature r) (filename r) (classname r) (testcases r)
     (counts_tests r) (counts_errors r + 1) (counts_failed r) (counts_skipped r).

Definition incr_failed (r : t) : t :=
  mk (feature r) (filename r) (classname r) (testcases r)
     (counts_tests r) (counts_errors r) (counts_failed r + 1) (counts_skipped r).

Definition incr_skipped (r : t) : t :=
  mk (feature r) (filename r) (classname r) (testcases r)
     (counts_tests r) (counts_errors r) (counts_failed r) (counts_skipped r + 1).

Definition append_testcase (r : t) (case : Element) : t :=
  mk (feature r) (filename r) (classname r) (testcases r ++ [case])
     (counts_tests r) (counts_errors r) (counts_failed r) (counts_skipped r).

(** [FeatureReportData.reset()] *)
Definition reset (r : t) : t :=
  mk (feature r) (filename r) (classname r) [] 0 0 0 0.

End FeatureReportData.

(* ================================================================== *)
(** * Runtime functions used to run the model on concrete inputs *)
(* ================================================================== *)

(** The reporter calls [ansi_escapes.strip_escapes] and Python's [round]
    and [str] on floats; it is parametric in them below.  The two
    functions of this part instantiate these parameters when the model
    is run. *)
Module Sample.

Definition is_digit (c : ascii) : bool :=
  let n := nat_of_ascii c in ((48 <=? n)%nat && (n <=? 57)%nat)%bool.

(** Modelled from the spec: [behave.formatter.ansi_escapes.strip_escapes]
    is not under src/.  The spec says that text is stripped of ANSI
    terminal escape sequences before it goes into a CDATA node; this
    function removes every colour or cursor sequence [ESC '[' digits
    ('m' | 'A')] and keeps all other characters.  [pending] holds the
    characters of a sequence that is not complete yet, [digits] whether
    a digit has been read in it. *)
Fixpoint strip_from (pending : string) (digits : bool) (s : string) : string :=
  match s with
  | EmptyString => pending
  | String c s' =>
      match pending with
      | EmptyString =>
          if Ascii.eqb c Py.esc then strip_from (String c EmptyString) false s'
          else String c (strip_from EmptyString false s')
      | String _ EmptyString =>
          if Ascii.eqb c "["%char then strip_from (pending ++ "[") false s'
          else if Ascii.eqb c Py.esc
          then pending ++ strip_from (String c EmptyString) false s'
          else pending ++ String c (strip_from EmptyString false s')
      | _ =>
          if is_digit c then strip_from (pending ++ String c EmptyString) true s'
          else if digits && (Ascii.eqb c "m"%char || Ascii.eqb c "A"%char)
          then strip_from EmptyString false s'
          else if Ascii.eqb c Py.esc
          then pending ++ strip_from (String c EmptyString) false s'
          else pending ++ String c (strip_from EmptyString false s')
      end
  end.

Definition strip_escapes (s : string) : string :=
  strip_from EmptyString false s.

(** [str(round(x, 6))] *)
Definition str_round6 (x : float) : string :=
  PyFloat.str (PyFloat.round x 6).

End Sample.

(* ================================================================== *)
(** * behave/reporter/junit.py *)
(* ================================================================== *)

Section JUnitReporter.

(** [ansi_escapes.strip_escapes], from [behave.formatter]. *)
Variable strip_escapes : string -> string.

(** [fun x => str(round(x, 6))], Python's rendering of a float rounded
    to six decimals. *)
Variable str_round6 : float -> string.

Definition CDATA_tag : string := "![CDATA[".

(** [CDATA(text)] *)
Definition CDATA (text : string) : Element :=
  let element := Element_ CDATA_tag in
  set_text element (Some (strip_escapes text)).

(** The replacement installed as [ElementTree._serialize_xml]; [orig]
    is the library's function, which calls back into the replacement
    for the children of an element. *)
Fixpoint _serialize_xml (elem : Element) : string :=
  if String.eqb (tag elem) CDATA_tag
  then Py.nl ++ "<" ++ tag elem ++ Py.str_opt (text elem) ++ "]]>" ++ Py.nl
  else orig_serialize_xml _serialize_xml elem.

(** The loop of [make_feature_filename] over [config.paths], up to its
    [break]; [None] when no path is a prefix of the file name. *)
Fixpoint first_matching_path (paths : list string) (feature_filename : string)
  : option string :=
  match paths with
  | [] => None
  | path :: paths' =>
      if Py.startswith feature_filename path
      then Some (Py.drop (String.length path + 1) feature_filename)
      else first_matching_path paths' feature_filename
  end.

Definition make_feature_filename (config : Config.t) (feature : Feature.t)
  : string :=
  let filename :=
    match first_matching_path (Config.paths config) (Feature.filename feature) with
    | Some filename => filename
    | None => Py.os_path_split_tail (Feature.filename feature)
    end in
  let filename := Py.rsplit1_head "."%char filename in
  Py.replace "/"%char "." (Py.replace "\"%char "/" filename).

(** [select_step_with_status(status, steps)] *)
Fixpoint select_step_with_status (status : string) (steps : list Step.t)
  : option Step.t :=
  match steps with
  | [] => None
  | step :: steps' =>
      if String.eqb (Step.status step) status then Some step
      else select_step_with_status status steps'
  end.

(** [describe_scenario(scenario)] *)
Definition describe_scenario (scenario : Scenario.t) : string :=
  fold_left
    (fun text step =>
       (text ++ Py.rjust 12 (Step.keyword step) ++ " " ++ Step.name step ++ " ... ")
         ++ Step.status step ++ Py.nl)
    (Scenario.all_steps scenario)
    ("Steps:" ++ Py.nl).

(** The [failed] branch of [_process_scenario], once the failed step
    is known: the updated report and the test case with its child. *)
Definition report_failed_step (step : Step.t)
    (report : FeatureReportData.t) (case : Element)
  : FeatureReportData.t * Element :=
  let element_name := "failure" in
  let '(report, element_name) :=
    if Py.isinstance_AssertionError_or_None (Step.exception step)
    then (FeatureReportData.incr_failed report, element_name)
    else (FeatureReportData.incr_errors report, "error") in
  let failure := Element_ element_name in
  let text := "Step: " ++ Step.name step ++ "." ++ Py.nl
               ++ "Location: " ++ Step.location step ++ Py.nl in
  let message := Py.str_exc (Step.exception step) in
  let message :=
    if (80 <? String.length message)%nat then Py.take 80 message ++ "..."
    else message in
  let failure := set failure "type" (Py.class_name (Step.exception step)) in
  let failure := set failure "message" message in
  let text := text ++ Step.error_message step in
  let failure := append failure (CDATA text) in
  (report, append case failure).

(** The [skipped]/[untested] branch of [_process_scenario]. *)
Definition report_skipped (scenario : Scenario.t)
    (report : FeatureReportData.t) (case : Element)
  : FeatureReportData.t * Element :=
  let report := FeatureReportData.incr_skipped report in
  match select_step_with_status "undefined" (Scenario.all_steps scenario) with
  | Some step =>
      let report := FeatureReportData.incr_failed report in
      let failure := Element_ "failure" in
      let failure := set failure "type" "undefined" in
      let failure := set failure "message" ("Undefined Step: " ++ Step.name step) in
      (report, append case failure)
  | None =>
      let skip := Element_ "skipped" in
      (report, append case skip)
  end.

(** The test case element of [_process_scenario] with its four
    attributes, before classification. *)
Definition new_testcase (scenario : Scenario.t) (report : FeatureReportData.t)
  : Element :=
  let feature := FeatureReportData.feature report in
  let classname := FeatureReportData.classname report in
  let case := Element_ "testcase" in
  let case := set case "classname"
                (Py.str_opt classname ++ "."
                   ++ Py.or_else (Feature.name feature) (Feature.filename feature)) in
  let case := set case "name" (Py.or_else (Scenario.name scenario) "") in
  let case := set case "status" (Scenario.status scenario) in
  set case "time" (str_round6 (Scenario.duration scenario)).

(** The end of [_process_scenario]: the [system-out] child, and the
    [system-err] child when the scenario captured standard error. *)
Definition attach_captured_output (scenario : Scenario.t) (case : Element)
  : Element :=
  let stdout := Element_ "system-out" in
  let text := describe_scenario scenario in
  let text :=
    if Py.truthy (Scenario.stdout scenario)
    then text ++ Py.nl ++ "Captured stdout:" ++ Py.nl
           ++ Py.str_opt (Scenario.stdout scenario) ++ Py.nl
    else text in
  let stdout := append stdout (CDATA text) in
  let case := append case stdout in
  if Py.truthy (Scenario.stderr scenario)
  then
    let stderr := Element_ "system-err" in
    let text := Py.nl ++ "Captured stderr:" ++ Py.nl
                  ++ Py.str_opt (Scenario.stderr scenario) ++ Py.nl in
    let stderr := append stderr (CDATA text) in
    append case stderr
  else case.

(** [_process_scenario(scenario, report)] *)
Definition _process_scenario (scenario : Scenario.t)
    (report : FeatureReportData.t) : Py.result FeatureReportData.t :=
  let case := new_testcase scenario report in
  let report := FeatureReportData.incr_tests report in
  classified <-
    (if String.eqb (Scenario.status scenario) "failed" then
       match select_step_with_status "failed" (Scenario.all_steps scenario) with
       | None => Py.AssertionFailed "OOPS: No failed step found"
       | Some step =>
           _ <- Py.assert_ (String.eqb (Step.status step) "failed") "" ;;
           Py.Ok (report_failed_step step report case)
       end
     else if String.eqb (Scenario.status scenario) "skipped"
             || String.eqb (Scenario.status scenario) "untested" then
       Py.Ok (report_skipped scenario report case)
     else Py.Ok (report, case)) ;;
  let '(report, case) := classified in
  let case := attach_captured_output scenario case in
  Py.Ok (FeatureReportData.append_testcase report case).

(** A [for] loop whose body updates the report and may fail. *)
Fixpoint for_each {A : Type}
    (body : A -> FeatureReportData.t -> Py.result FeatureReportData.t)
    (items : list A) (report : FeatureReportData.t)
  : Py.result FeatureReportData.t :=
  match items with
  | [] => Py.Ok report
  | x :: items' =>
      report <- body x report ;;
      for_each body items' report
  end.

(** [_process_scenario_outline(scenario_outline, report)] *)
Definition _process_scenario_outline (scenario_outline : ScenarioOutline.t)
    (report : FeatureReportData.t) : Py.result FeatureReportData.t :=
  for_each _process_scenario (ScenarioOutline.scenarios scenario_outline) report.

(** The first half of [feature(feature)]: the report after the loop
    over the scenarios of the feature. *)
Definition build_report (config : Config.t) (feature : Feature.t)
  : Py.result FeatureReportData.t :=
  let filename := make_feature_filename config feature in
  let report := FeatureReportData.init feature filename None in
  for_each
    (fun scenario report =>
       match scenario with
       | IsScenarioOutline scenario_outline =>
           _process_scenario_outline scenario_outline report
       | IsScenario scenario => _process_scenario scenario report
       end)
    (Feature.scenarios feature) report.

(** [feature(feature)]: the name of the report file inside
    [config.junit_directory] and the [testsuite] element written to it. *)
Definition feature (config : Config.t) (feature : Feature.t)
  : Py.result (string * Element) :=
  let filename := make_feature_filename config feature in
  let classname := filename in
  let filename := "TESTS-" ++ filename ++ ".xml" in
  let suite := Element_ "testsuite" in
  let suite := set suite "name"
                 (classname ++ "."
                    ++ Py.or_else (Feature.name feature) (Feature.filename feature)) in
  report <- build_report config feature ;;
  let suite := fold_left append (FeatureReportData.testcases report) suite in
  let suite := set suite "tests" (Py.str_int (FeatureReportData.counts_tests report)) in
  let suite := set suite "errors" (Py.str_int (FeatureReportData.counts_errors report)) in
  let suite := set suite "failures" (Py.str_int (FeatureReportData.counts_failed report)) in
  let suite := set suite "skipped" (Py.str_int (FeatureReportData.counts_skipped report)) in
  let suite := set suite "time" (str_round6 (Feature.duration feature)) in
  Py.Ok (filename, suite).

(** The scenarios of a feature after outline expansion, in the order
    in which [feature] meets them. *)
Definition expanded_scenarios (feature : Feature.t) : list Scenario.t :=
  flat_map
    (fun item =>
       match item with
       | IsScenario scenario => [scenario]
       | IsScenarioOutline scenario_outline =>
           ScenarioOutline.scenarios scenario_outline
       end)
    (Feature.scenarios feature).

End JUnitReporter.

(** ** The classname as the specification words it *)






(** The last two replacements of [make_feature_filename]. *)
Definition separators_to_dots (filename : string) : string :=
  Py.replace "/"%char "." (Py.replace "\"%char "/" filename).

(** ** The test case that reports a scenario *)

(** [case] is a [testcase] element carrying the name, the status and the
    rendered duration of [scenario]. *)
Definition is_testcase_of (str_round6 : float -> string)
    (scenario : Scenario.t) (case : Element) : Prop :=
  tag case = "testcase"
  /\ get case "name" = Some (Py.or_else (Scenario.name scenario) "")
  /\ get case "status" = Some (Scenario.status scenario)
  /\ get case "time" = Some (str_round6 (Scenario.duration scenario)).

(** Every scenario marked failed has a failed step. *)
Definition failed_has_failed_step (scenario : Scenario.t) : Prop :=
  Scenario.status scenario = "failed" ->
  Exists (fun s => Step.status s = "failed") (Scenario.all_steps scenario).

(* ================================================================== *)
(** * Concrete inputs *)
(* ================================================================== *)

Module Example.

Definition assertion_error (msg : string) : Py.Exception :=
  Py.mkException "AssertionError" true msg.

Definition runtime_error (msg : string) : Py.Exception :=
  Py.mkException "RuntimeError" false msg.

Definition long_message : string :=
  "0123456789012345678901234567890123456789"
    ++ "0123456789012345678901234567890123456789" ++ "tail".

Definition given_passed : Step.t :=
  Step.mk "Given" "a user" "passed" None "" "features/login.feature:4".

Definition when_failed : Step.t :=
  Step.mk "When" "she logs in" "failed"
    (Some (assertion_error "expected 200")) "Assertion Failed: expected 200"
    "features/login.feature:5".

Definition when_crashed : Step.t :=
  Step.mk "When" "she logs in" "failed"
    (Some (runtime_error long_message)) ("Traceback: " ++ long_message)
    "features/login.feature:5".

Definition when_failed_bare : Step.t :=
  Step.mk "When" "she logs in" "failed" None "" "features/login.feature:5".

Definition then_undefined : Step.t :=
  Step.mk "Then" "she sees her inbox" "undefined" None ""
    "features/login.feature:6".

Definition then_skipped : Step.t :=
  Step.mk "Then" "she sees her inbox" "skipped" None ""
    "features/login.feature:6".

Definition special_text : string :=
  "a<b & " ++ Py.dquote ++ "c" ++ Py.dquote.

Definition login_works : Scenario.t :=
  Scenario.mk (Some "Login works") "passed" 0.123456%float
    [given_passed] (Some special_text) None.

Definition login_fails : Scenario.t :=
  Scenario.mk (Some "Login fails") "failed" 1.5%float
    [given_passed; when_failed; then_skipped] None None.

Definition login_crashes : Scenario.t :=
  Scenario.mk (Some "Login crashes") "failed" 2%float
    [given_passed; when_crashed; then_skipped] None (Some "boom").

Definition login_fails_bare : Scenario.t :=
  Scenario.mk None "failed" 0%float
    [given_passed; when_failed_bare] None None.

Definition inbox_undefined : Scenario.t :=
  Scenario.mk (Some "Inbox") "skipped" 0%float
    [given_passed; then_undefined] None None.

Definition inbox_untested : Scenario.t :=
  Scenario.mk (Some "Inbox later") "untested" 0%float
    [then_skipped] None None.

(** A scenario marked failed none of whose steps failed. *)
Definition failed_without_step : Scenario.t :=
  Scenario.mk (Some "Broken") "failed" 0%float [given_passed] None None.

Definition login_outline : ScenarioOutline.t :=
  ScenarioOutline.mk [login_fails; login_crashes].

Definition login_feature : Feature.t :=
  Feature.mk (Some "Login") "features/a/b.feature" 3.623456%float
    [IsScenario login_works; IsScenarioOutline login_outline;
     IsScenario inbox_undefined; IsScenario inbox_untested].

Definition config : Config.t := Config.mk ["features"] "reports".

Definition empty_report : FeatureReportData.t :=
  FeatureReportData.init login_feature "a.b" None.

End Example.

(* ================================================================== *)
(** * The rest of the reporter *)
(* ================================================================== *)

(** [report_filename] in [feature(feature)]: the path of the file that
    the report is written to. *)
Definition report_filename (config : Config.t) (feature : Feature.t) : string :=
  let filename := make_feature_filename config feature in
  let filename := "TESTS-" ++ filename ++ ".xml" in
  Py.os_path_join (Config.junit_directory config) filename.

(** ** Words for the statements *)

(** The entity that standard XML serialization writes for a character
    of an attribute value, and of a text. *)
Definition attribute_entity (c : ascii) : string :=
  if Ascii.eqb c "&" then "&amp;"
  else if Ascii.eqb c "<" then "&lt;"
  else if Ascii.eqb c ">" then "&gt;"
  else if Ascii.eqb c "034" then "&quot;"
  else if Ascii.eqb c "010" then "&#10;"
  else String c EmptyString.

Definition text_entity (c : ascii) : string :=
  if Ascii.eqb c "&" then "&amp;"
  else if Ascii.eqb c "<" then "&lt;"
  else if Ascii.eqb c ">" then "&gt;"
  else String c EmptyString.

(** A string with every character replaced by its entity. *)
Fixpoint escape_with (entity : ascii -> string) (s : string) : string :=
  match s with
  | EmptyString => EmptyString
  | String c s' => entity c ++ escape_with entity s'
  end.

(** The number that a string of decimal digits denotes. *)
Definition int_of_str (s : string) : option nat :=
  option_map Nat.of_uint (NilZero.uint_of_string s).

(** A character does not occur in a string. *)
Definition absent (c : ascii) (s : string) : Prop :=
  Forall (fun x => x <> c) (list_ascii_of_string s).

(** The line of [describe_scenario] for one step. *)
Definition step_line (step : Step.t) : string :=
  Py.rjust 12 (Step.keyword step) ++ " " ++ Step.name step ++ " ... "
    ++ Step.status step ++ Py.nl.

Definition is_failed (scenario : Scenario.t) : bool :=
  String.eqb (Scenario.status scenario) "failed".

Definition is_skipped (scenario : Scenario.t) : bool :=
  String.eqb (Scenario.status scenario) "skipped"
  || String.eqb (Scenario.status scenario) "untested".

(** A failed scenario whose first failed step carries an exception that
    is not an [AssertionError]. *)
Definition is_error (scenario : Scenario.t) : bool :=
  is_failed scenario
  && match select_step_with_status "failed" (Scenario.all_steps scenario) with
     | Some step =>
         negb (Py.isinstance_AssertionError_or_None (Step.exception step))
     | None => false
     end.

(** A failed scenario whose first failed step carries no exception or
    an [AssertionError]. *)
Definition is_failure (scenario : Scenario.t) : bool :=
  is_failed scenario
  && match select_step_with_status "failed" (Scenario.all_steps scenario) with
     | Some step => Py.isinstance_AssertionError_or_None (Step.exception step)
     | None => false
     end.

(** A skipped or untested scenario with an undefined step. *)
Definition is_undefined (scenario : Scenario.t) : bool :=
  is_skipped scenario
  && match select_step_with_status "undefined" (Scenario.all_steps scenario) with
     | Some _ => true
     | None => false
     end.

(** The tag of the child that classifies the test case of a scenario,
    if it has one. *)
Definition verdict (scenario : Scenario.t) : list string :=
  if is_error scenario then ["error"]
  else if is_failure scenario || is_undefined scenario then ["failure"]
  else if is_skipped scenario then ["skipped"]
  else [].

Definition count (p : Scenario.t -> bool) (scenarios : list Scenario.t) : nat :=
  List.length (filter p scenarios).

(* ================================================================== *)
(** * Properties *)
(* ================================================================== *)

Section Properties.

Variable strip_escapes : string -> string.
Variable str_round6 : float -> string.

Local Abbreviation attach_output := (attach_captured_output strip_escapes).
Local Abbreviation failed_step_report := (report_failed_step strip_escapes).
Local Abbreviation testcase_of := (new_testcase str_round6).

Import FeatureReportData.

(** ** Strings *)

Lemma append_assoc (a b c : string) : (a ++ b) ++ c = a ++ (b ++ c).
Proof. induction a as [|x a IH]; simpl; [|rewrite IH]; reflexivity. Qed.

Lemma append_nil_r (a : string) : a ++ "" = a.
Proof. induction a as [|x a IH]; simpl; [|rewrite IH]; reflexivity. Qed.

Lemma take_drop (n : nat) (s : string) : s = Py.take n s ++ Py.drop n s.
Proof.
  revert s; induction n as [|n IH]; intros [|c s]; simpl; try reflexivity.
  rewrite <- IH. reflexivity.
Qed.

Lemma length_take (n : nat) (s : string) :
  n <= String.length s -> String.length (Py.take n s) = n.
Proof.
  revert s; induction n as [|n IH]; intros [|c s]; simpl; intros H;
    try reflexivity; try lia.
  rewrite IH; [reflexivity | lia].
Qed.


Lemma replace_append (c : ascii) (r a b : string) :
  Py.replace c r (a ++ b) = Py.replace c r a ++ Py.replace c r b.
Proof.
  induction a as [|x a IH]; simpl; [reflexivity|]. rewrite IH.
  destruct (Ascii.eqb x c); [rewrite append_assoc|]; reflexivity.
Qed.

Lemma replace_cons_eq (c : ascii) (r s : string) :
  Py.replace c r (String c s) = r ++ Py.replace c r s.
Proof. simpl. rewrite Ascii.eqb_refl. reflexivity. Qed.

Lemma replace_cons_neq (a c : ascii) (r s : string) :
  a <> c -> Py.replace c r (String a s) = String a (Py.replace c r s).
Proof. intros H. apply Ascii.eqb_neq in H. simpl. rewrite H. reflexivity. Qed.

(** ** Escaping *)

Lemma escape_attrib_entities (s : string) :
  _escape_attrib s = escape_with attribute_entity s.
Proof.
  unfold _escape_attrib. induction s as [|c s IH]; [reflexivity|].
  cbn [escape_with]. rewrite <- IH. unfold attribute_entity.
  destruct (Ascii.eqb_spec c "&"%char) as [E1|E1];
    [subst; rewrite replace_cons_eq, !replace_append; reflexivity|].
  rewrite (replace_cons_neq _ _ _ _ E1).
  destruct (Ascii.eqb_spec c "<"%char) as [E2|E2];
    [subst; rewrite replace_cons_eq, !replace_append; reflexivity|].
  rewrite (replace_cons_neq _ _ _ _ E2).
  destruct (Ascii.eqb_spec c ">"%char) as [E3|E3];
    [subst; rewrite replace_cons_eq, !replace_append; reflexivity|].
  rewrite (replace_cons_neq _ _ _ _ E3).
  destruct (Ascii.eqb_spec c "034"%char) as [E4|E4];
    [subst; rewrite replace_cons_eq, !replace_append; reflexivity|].
  rewrite (replace_cons_neq _ _ _ _ E4).
  destruct (Ascii.eqb_spec c "010"%char) as [E5|E5];
    [subst; rewrite replace_cons_eq; reflexivity|].
  rewrite (replace_cons_neq _ _ _ _ E5). reflexivity.
Qed.

Lemma escape_cdata_entities (s : string) :
  _escape_cdata s = escape_with text_entity s.
Proof.
  unfold _escape_cdata. induction s as [|c s IH]; [reflexivity|].
  cbn [escape_with]. rewrite <- IH. unfold text_entity.
  destruct (Ascii.eqb_spec c "&"%char) as [E1|E1];
    [subst; rewrite replace_cons_eq, !replace_append; reflexivity|].
  rewrite (replace_cons_neq _ _ _ _ E1).
  destruct (Ascii.eqb_spec c "<"%char) as [E2|E2];
    [subst; rewrite replace_cons_eq, !replace_append; reflexivity|].
  rewrite (replace_cons_neq _ _ _ _ E2).
  destruct (Ascii.eqb_spec c ">"%char) as [E3|E3];
    [subst; rewrite replace_cons_eq; reflexivity|].
  rewrite (replace_cons_neq _ _ _ _ E3). reflexivity.
Qed.

(** ** The linear scan *)

Lemma select_step_first (status : string) (steps : list Step.t) (step : Step.t) :
  select_step_with_status status steps = Some step ->
  exists before after,
    steps = (before ++ step :: after)%list
    /\ Forall (fun s => Step.status s <> status) before
    /\ Step.status step = status.
Proof.
  induction steps as [|s steps IH]; simpl; [discriminate|].
  destruct (String.eqb_spec (Step.status s) status) as [E|E]; intros H.
  - injection H as ->. exists [], steps. auto.
  - destruct (IH H) as (before & after & -> & Hb & Hs).
    exists (s :: before), after. auto.
Qed.

Lemma select_step_at (status : string) (before after : list Step.t) (step : Step.t) :
  Forall (fun s => Step.status s <> status) before ->
  Step.status step = status ->
  select_step_with_status status (before ++ step :: after)%list = Some step.
Proof.
  intros Hb Hs. induction Hb as [|s before Hne _ IH]; simpl.
  - rewrite Hs, String.eqb_refl. reflexivity.
  - apply String.eqb_neq in Hne. rewrite Hne. exact IH.
Qed.

Lemma select_step_none (status : string) (steps : list Step.t) :
  select_step_with_status status steps = None
  <-> Forall (fun s => Step.status s <> status) steps.
Proof.
  induction steps as [|s steps IH]; simpl.
  - split; auto.
  - destruct (String.eqb_spec (Step.status s) status) as [E|E]; split; intros H.
    + discriminate.
    + inversion H; contradiction.
    + constructor; [exact E | apply IH, H].
    + apply IH. inversion H; assumption.
Qed.

(** ** The three branches of [_process_scenario] *)

Local Arguments Py.take : simpl never.
Local Arguments String.append : simpl never.
Local Arguments String.length : simpl never.
Local Arguments Nat.ltb : simpl never.

Lemma process_scenario_failed scenario report step :
  Scenario.status scenario = "failed" ->
  select_step_with_status "failed" (Scenario.all_steps scenario) = Some step ->
  _process_scenario strip_escapes str_round6 scenario report =
    let p := failed_step_report step (incr_tests report)
               (testcase_of scenario report) in
    Py.Ok (append_testcase (fst p) (attach_output scenario (snd p))).
Proof.
  intros Hst Hsel. unfold _process_scenario. rewrite Hst, Hsel. simpl.
  destruct (select_step_first _ _ _ Hsel) as (_ & _ & _ & _ & ->). simpl.
  destruct (report_failed_step _ _ _ _). reflexivity.
Qed.

Lemma process_scenario_failed_no_step scenario report :
  Scenario.status scenario = "failed" ->
  select_step_with_status "failed" (Scenario.all_steps scenario) = None ->
  _process_scenario strip_escapes str_round6 scenario report =
    Py.AssertionFailed "OOPS: No failed step found".
Proof.
  intros Hst Hsel. unfold _process_scenario. rewrite Hst, Hsel. reflexivity.
Qed.

Lemma process_scenario_skipped scenario report :
  Scenario.status scenario = "skipped" \/ Scenario.status scenario = "untested" ->
  _process_scenario strip_escapes str_round6 scenario report =
    let p := report_skipped scenario (incr_tests report)
               (testcase_of scenario report) in
    Py.Ok (append_testcase (fst p) (attach_output scenario (snd p))).
Proof.
  intros [Hst|Hst]; unfold _process_scenario; rewrite Hst; simpl;
    destruct (report_skipped _ _ _); reflexivity.
Qed.

Lemma process_scenario_other scenario report :
  Scenario.status scenario <> "failed" ->
  Scenario.status scenario <> "skipped" ->
  Scenario.status scenario <> "untested" ->
  _process_scenario strip_escapes str_round6 scenario report =
    Py.Ok (append_testcase (incr_tests report)
             (attach_output scenario (testcase_of scenario report))).
Proof.
  intros H1 H2 H3. unfold _process_scenario.
  apply String.eqb_neq in H1, H2, H3. rewrite H1, H2, H3. reflexivity.
Qed.

(** ** What the pieces do to the test case element *)

Lemma attach_output_spec scenario case :
  exists out,
    attach_output scenario case =
      mkElement (tag case) (attrib case) (text case) (children case ++ out)%list (tail case)
    /\ map tag out =
         "system-out" :: (if Py.truthy (Scenario.stderr scenario)
                          then ["system-err"] else []).
Proof.
  unfold attach_captured_output.
  destruct (Py.truthy (Scenario.stderr scenario)); eexists; split;
    try (unfold append; simpl; rewrite <- ?app_assoc; reflexivity); reflexivity.
Qed.

Lemma testcase_of_spec scenario report :
  let case := testcase_of scenario report in
  tag case = "testcase"
  /\ children case = []
  /\ get case "name" = Some (Py.or_else (Scenario.name scenario) "")
  /\ get case "status" = Some (Scenario.status scenario)
  /\ get case "time" = Some (str_round6 (Scenario.duration scenario)).
Proof. repeat split. Qed.

(** The child element of a failed scenario, as the source builds it. *)
Lemma failed_scenario_shape scenario report step :
  Scenario.status scenario = "failed" ->
  select_step_with_status "failed" (Scenario.all_steps scenario) = Some step ->
  let is_failure := Py.isinstance_AssertionError_or_None (Step.exception step) in
  let message := Py.str_exc (Step.exception step) in
  let child :=
    mkElement (if is_failure then "failure" else "error")
      [("type", Py.class_name (Step.exception step));
       ("message", if (80 <? String.length message)%nat
                   then Py.take 80 message ++ "..." else message)]
      None
      [CDATA strip_escapes
         ("Step: " ++ Step.name step ++ "." ++ Py.nl
            ++ "Location: " ++ Step.location step ++ Py.nl
            ++ Step.error_message step)]
      None in
  exists out,
    map tag out =
      "system-out" :: (if Py.truthy (Scenario.stderr scenario)
                       then ["system-err"] else [])
    /\ _process_scenario strip_escapes str_round6 scenario report =
         Py.Ok (append_testcase
                  (if is_failure then incr_failed (incr_tests report)
                   else incr_errors (incr_tests report))
                  (mkElement "testcase" (attrib (testcase_of scenario report))
                     None (child :: out) None)).
Proof.
  intros Hst Hsel is_failure message child.
  rewrite (process_scenario_failed _ _ _ Hst Hsel). cbv zeta.
  destruct (attach_output_spec scenario
              (snd (failed_step_report step (incr_tests report)
                      (testcase_of scenario report)))) as (out & -> & Htags).
  exists out. split; [exact Htags|].
  unfold report_failed_step, child, message, is_failure.
  destruct (Py.isinstance_AssertionError_or_None (Step.exception step));
    simpl; rewrite ?append_assoc; reflexivity.
Qed.

(** C1. A failed scenario is classified by its first failed step: when
    that step has no exception, or one that is an [AssertionError], a
    [failure] child is attached and only the failures counter grows;
    when it has an exception of any other class an [error] child is
    attached and only the errors counter grows. *)
Theorem failed_scenario_classification scenario report before step after :
  Scenario.status scenario = "failed" ->
  Scenario.all_steps scenario = (before ++ step :: after)%list ->
  Forall (fun s => Step.status s <> "failed") before ->
  Step.status step = "failed" ->
  exists report' case child rest,
    _process_scenario strip_escapes str_round6 scenario report = Py.Ok report'
    /\ testcases report' = (testcases report ++ [case])%list
    /\ children case = child :: rest
    /\ ~ In "failure" (map tag rest) /\ ~ In "error" (map tag rest)
    /\ counts_skipped report' = counts_skipped report
    /\ ((Step.exception step = None
         \/ exists e, Step.exception step = Some e
                      /\ Py.exc_is_assertion e = true) ->
        tag child = "failure"
        /\ counts_failed report' = counts_failed report + 1
        /\ counts_errors report' = counts_errors report)
    /\ ((exists e, Step.exception step = Some e
                   /\ Py.exc_is_assertion e = false) ->
        tag child = "error"
        /\ counts_errors report' = counts_errors report + 1
        /\ counts_failed report' = counts_failed report).
Proof.
  intros Hst Hsteps Hbefore Hstep.
  assert (Hsel : select_step_with_status "failed" (Scenario.all_steps scenario)
                 = Some step)
    by (rewrite Hsteps; apply select_step_at; assumption).
  destruct (failed_scenario_shape scenario report step Hst Hsel)
    as (out & Htags & ->).
  assert (Hout : ~ In "failure" (map tag out) /\ ~ In "error" (map tag out)).
  { rewrite Htags. destruct (Py.truthy (Scenario.stderr scenario)); simpl;
      intuition discriminate. }
  destruct Hout as (Hout1 & Hout2).
  destruct (Step.exception step) as [e|] eqn:Hexc;
    [destruct (Py.exc_is_assertion e) eqn:He|];
    simpl Py.isinstance_AssertionError_or_None; try rewrite He;
    do 4 eexists; (split; [reflexivity|]); (split; [reflexivity|]);
    (split; [reflexivity|]); (split; [exact Hout1|]); (split; [exact Hout2|]);
    (split; [reflexivity|]); split.
  - intros _. repeat split.
  - intros (e' & He' & Hfalse). injection He' as <-. congruence.
  - intros [Hnone | (e' & He' & Htrue)]; [discriminate|].
    injection He' as <-. congruence.
  - intros _. repeat split.
  - intros _. repeat split.
  - intros (e' & He' & _). discriminate.
Qed.

(** C10. A failed scenario whose first failed step carries no exception
    object is a failure, reported with the class name and the string
    form of [None]: type [NoneType], message [None]. *)
Theorem failed_step_without_exception scenario report before step after :
  Scenario.status scenario = "failed" ->
  Scenario.all_steps scenario = (before ++ step :: after)%list ->
  Forall (fun s => Step.status s <> "failed") before ->
  Step.status step = "failed" ->
  Step.exception step = None ->
  exists report' case child rest,
    _process_scenario strip_escapes str_round6 scenario report = Py.Ok report'
    /\ testcases report' = (testcases report ++ [case])%list
    /\ children case = child :: rest
    /\ tag child = "failure"
    /\ get child "type" = Some "NoneType"
    /\ get child "message" = Some "None"
    /\ counts_failed report' = counts_failed report + 1
    /\ counts_errors report' = counts_errors report.
Proof.
  intros Hst Hsteps Hbefore Hstep Hexc.
  assert (Hsel : select_step_with_status "failed" (Scenario.all_steps scenario)
                 = Some step)
    by (rewrite Hsteps; apply select_step_at; assumption).
  destruct (failed_scenario_shape scenario report step Hst Hsel)
    as (out & _ & ->).
  rewrite Hexc. do 4 eexists. repeat split; reflexivity.
Qed.

(** C4. The message attribute of the failure or error child is the
    string form of the exception of the failed step when that has at
    most 80 characters, and its first 80 characters followed by three
    dots otherwise; the body of the child is one CDATA node holding the
    step name, the step location and the whole recorded error message. *)
Theorem failed_scenario_message scenario report before step after :
  Scenario.status scenario = "failed" ->
  Scenario.all_steps scenario = (before ++ step :: after)%list ->
  Forall (fun s => Step.status s <> "failed") before ->
  Step.status step = "failed" ->
  let message := Py.str_exc (Step.exception step) in
  exists report' case child rest body,
    _process_scenario strip_escapes str_round6 scenario report = Py.Ok report'
    /\ testcases report' = (testcases report ++ [case])%list
    /\ children case = child :: rest
    /\ (String.length message <= 80 -> get child "message" = Some message)
    /\ (80 < String.length message ->
        exists first80 suffix,
          message = first80 ++ suffix
          /\ String.length first80 = 80
          /\ get child "message" = Some (first80 ++ "..."))
    /\ children child = [body]
    /\ tag body = CDATA_tag
    /\ text body =
         Some (strip_escapes
                 ("Step: " ++ Step.name step ++ "." ++ Py.nl
                    ++ "Location: " ++ Step.location step ++ Py.nl
                    ++ Step.error_message step)).
Proof.
  intros Hst Hsteps Hbefore Hstep message.
  assert (Hsel : select_step_with_status "failed" (Scenario.all_steps scenario)
                 = Some step)
    by (rewrite Hsteps; apply select_step_at; assumption).
  destruct (failed_scenario_shape scenario report step Hst Hsel)
    as (out & _ & ->).
  assert (Hshort : String.length message <= 80 ->
                   (if (80 <? String.length message)%nat
                    then Py.take 80 message ++ "..." else message) = message)
    by (intros Hlen; destruct (Nat.ltb_spec 80 (String.length message));
        [lia | reflexivity]).
  assert (Hlong : 80 < String.length message ->
                  (if (80 <? String.length message)%nat
                   then Py.take 80 message ++ "..." else message)
                  = Py.take 80 message ++ "...")
    by (intros Hlen; destruct (Nat.ltb_spec 80 (String.length message));
        [reflexivity | lia]).
  destruct (Py.isinstance_AssertionError_or_None (Step.exception step));
    do 5 eexists; (split; [reflexivity|]); (split; [reflexivity|]);
    (split; [reflexivity|]); fold message;
    (split; [|split; [|repeat split]]).
  all: intros Hlen; unfold get; simpl.
  1, 3: rewrite (Hshort Hlen); reflexivity.
  all: exists (Py.take 80 message), (Py.drop 80 message);
    split; [apply take_drop|]; split; [apply length_take; lia|];
    rewrite (Hlong Hlen); reflexivity.
Qed.

(** The child element of a skipped or untested scenario. *)
Lemma skipped_scenario_shape scenario report :
  Scenario.status scenario = "skipped" \/ Scenario.status scenario = "untested" ->
  let undefined :=
    select_step_with_status "undefined" (Scenario.all_steps scenario) in
  exists out,
    map tag out =
      "system-out" :: (if Py.truthy (Scenario.stderr scenario)
                       then ["system-err"] else [])
    /\ _process_scenario strip_escapes str_round6 scenario report =
         Py.Ok (append_testcase
                  (match undefined with
                   | Some _ => incr_failed (incr_skipped (incr_tests report))
                   | None => incr_skipped (incr_tests report)
                   end)
                  (mkElement "testcase" (attrib (testcase_of scenario report)) None
                     (match undefined with
                      | Some step =>
                          mkElement "failure"
                            [("type", "undefined");
                             ("message", "Undefined Step: " ++ Step.name step)]
                            None [] None
                      | None => mkElement "skipped" [] None [] None
                      end :: out)
                     None)).
Proof.
  intros Hst undefined.
  rewrite (process_scenario_skipped _ _ Hst). cbv zeta.
  destruct (attach_output_spec scenario
              (snd (report_skipped scenario (incr_tests report)
                      (testcase_of scenario report)))) as (out & -> & Htags).
  exists out. split; [exact Htags|].
  unfold report_skipped, undefined.
  destruct (select_step_with_status "undefined" (Scenario.all_steps scenario));
    reflexivity.
Qed.

(** C3. A skipped or untested scenario increments the skipped counter.
    With an undefined step it also increments the failures counter and
    gets a [failure] child of type [undefined] whose message names the
    first undefined step, without a body; without one it gets an empty
    [skipped] child. *)
Theorem skipped_scenario_report scenario report :
  Scenario.status scenario = "skipped" \/ Scenario.status scenario = "untested" ->
  exists report' case child rest,
    _process_scenario strip_escapes str_round6 scenario report = Py.Ok report'
    /\ testcases report' = (testcases report ++ [case])%list
    /\ children case = child :: rest
    /\ counts_skipped report' = counts_skipped report + 1
    /\ counts_errors report' = counts_errors report
    /\ (forall before step after,
          Scenario.all_steps scenario = (before ++ step :: after)%list ->
          Forall (fun s => Step.status s <> "undefined") before ->
          Step.status step = "undefined" ->
          counts_failed report' = counts_failed report + 1
          /\ child = mkElement "failure"
                       [("type", "undefined");
                        ("message", "Undefined Step: " ++ Step.name step)]
                       None [] None)
    /\ (Forall (fun s => Step.status s <> "undefined")
               (Scenario.all_steps scenario) ->
        counts_failed report' = counts_failed report
        /\ child = mkElement "skipped" [] None [] None).
Proof.
  intros Hst.
  destruct (skipped_scenario_shape scenario report Hst) as (out & _ & ->).
  destruct (select_step_with_status "undefined" (Scenario.all_steps scenario))
    as [found|] eqn:Hsel;
    do 4 eexists; (split; [reflexivity|]); (split; [reflexivity|]);
    (split; [reflexivity|]); (split; [reflexivity|]); (split; [reflexivity|]);
    split.
  - intros before step after Hsteps Hbefore Hstep.
    rewrite Hsteps, (select_step_at _ _ _ _ Hbefore Hstep) in Hsel.
    injection Hsel as <-. split; reflexivity.
  - intros Hnone. apply select_step_none in Hnone. congruence.
  - intros before step after Hsteps Hbefore Hstep.
    rewrite Hsteps, (select_step_at _ _ _ _ Hbefore Hstep) in Hsel.
    discriminate.
  - intros _. split; reflexivity.
Qed.


(** ** One scenario, then a list of scenarios *)

Lemma process_scenario_ok scenario report :
  failed_has_failed_step scenario ->
  exists report', _process_scenario strip_escapes str_round6 scenario report = Py.Ok report'.
Proof.
  intros Hpre.
  destruct (string_dec (Scenario.status scenario) "failed") as [Hf|Hf].
  - destruct (select_step_with_status "failed" (Scenario.all_steps scenario))
      as [step|] eqn:Hsel.
    + destruct (failed_scenario_shape scenario report step Hf Hsel)
        as (out & _ & ->). eauto.
    + apply select_step_none in Hsel. specialize (Hpre Hf).
      apply Exists_exists in Hpre. destruct Hpre as (s & Hin & Hs).
      rewrite Forall_forall in Hsel. elim (Hsel s Hin Hs).
  - destruct (string_dec (Scenario.status scenario) "skipped") as [Hs|Hs];
      [|destruct (string_dec (Scenario.status scenario) "untested") as [Hu|Hu]].
    + destruct (skipped_scenario_shape scenario report (or_introl Hs))
        as (out & _ & ->). eauto.
    + destruct (skipped_scenario_shape scenario report (or_intror Hu))
        as (out & _ & ->). eauto.
    + rewrite process_scenario_other by assumption. eauto.
Qed.

Lemma process_scenario_step scenario report report' :
  _process_scenario strip_escapes str_round6 scenario report = Py.Ok report' ->
  exists case,
    testcases report' = (testcases report ++ [case])%list
    /\ is_testcase_of str_round6 scenario case
    /\ counts_tests report' = counts_tests report + 1
    /\ counts_errors report' + counts_failed report'
       <= counts_errors report + counts_failed report + 1
    /\ counts_skipped report' <= counts_skipped report + 1
    /\ FeatureReportData.feature report' = FeatureReportData.feature report
    /\ classname report' = classname report.
Proof.
  intros Hok.
  destruct (string_dec (Scenario.status scenario) "failed") as [Hf|Hf].
  - destruct (select_step_with_status "failed" (Scenario.all_steps scenario))
      as [step|] eqn:Hsel.
    + destruct (failed_scenario_shape scenario report step Hf Hsel)
        as (out & _ & Heq).
      rewrite Heq in Hok. injection Hok as <-.
      destruct (Py.isinstance_AssertionError_or_None (Step.exception step));
        eexists; (split; [reflexivity|]); (split; [repeat split|]);
        simpl; repeat split; lia.
    + rewrite (process_scenario_failed_no_step _ _ Hf Hsel) in Hok.
      discriminate.
  - assert (Hcases :
      exists out report1,
        report' = append_testcase report1
                    (mkElement "testcase" (attrib (testcase_of scenario report))
                       None out None)
        /\ counts_tests report1 = counts_tests report + 1
        /\ counts_errors report1 + counts_failed report1
           <= counts_errors report + counts_failed report + 1
        /\ counts_skipped report1 <= counts_skipped report + 1
        /\ testcases report1 = testcases report
        /\ FeatureReportData.feature report1 = FeatureReportData.feature report
        /\ classname report1 = classname report).
    { destruct (string_dec (Scenario.status scenario) "skipped") as [Hs|Hs];
        [|destruct (string_dec (Scenario.status scenario) "untested") as [Hu|Hu]].
      - destruct (skipped_scenario_shape scenario report (or_introl Hs))
          as (out & _ & Heq).
        rewrite Heq in Hok. injection Hok as <-.
        destruct (select_step_with_status "undefined" _);
          do 2 eexists; (split; [reflexivity|]); simpl; repeat split; lia.
      - destruct (skipped_scenario_shape scenario report (or_intror Hu))
          as (out & _ & Heq).
        rewrite Heq in Hok. injection Hok as <-.
        destruct (select_step_with_status "undefined" _);
          do 2 eexists; (split; [reflexivity|]); simpl; repeat split; lia.
      - rewrite process_scenario_other in Hok by assumption.
        injection Hok as <-.
        destruct (attach_output_spec scenario (testcase_of scenario report))
          as (out & -> & _).
        do 2 eexists; (split; [reflexivity|]); simpl; repeat split; lia. }
    destruct Hcases as (out & report1 & -> & Ht & Hef & Hs & Hcs & Hfe & Hcl).
    eexists. split; [simpl; rewrite Hcs; reflexivity|].
    split; [repeat split|]. simpl. repeat split; assumption.
Qed.

Lemma for_each_app {A : Type}
    (body : A -> FeatureReportData.t -> Py.result FeatureReportData.t)
    (xs ys : list A) (report : FeatureReportData.t) :
  for_each body (xs ++ ys)%list report =
    (report1 <- for_each body xs report ;; for_each body ys report1).
Proof.
  revert report; induction xs as [|x xs IH]; intros report; simpl.
  - reflexivity.
  - destruct (body x report) as [report1|msg]; simpl; [apply IH | reflexivity].
Qed.

(** The loop of [feature] over scenarios and outlines is the loop of
    [_process_scenario] over the expanded scenarios. *)
Lemma build_report_expanded config feature :
  build_report strip_escapes str_round6 config feature =
    for_each (_process_scenario strip_escapes str_round6) (expanded_scenarios feature)
      (FeatureReportData.init feature
         (make_feature_filename config feature) None).
Proof.
  unfold build_report, expanded_scenarios.
  generalize (FeatureReportData.init feature
                (make_feature_filename config feature) None).
  induction (Feature.scenarios feature) as [|item items IH]; intros report.
  - reflexivity.
  - simpl flat_map. rewrite for_each_app. destruct item as [scenario|outline].
    + simpl. destruct (_process_scenario strip_escapes str_round6 scenario report); simpl;
        [apply IH | reflexivity].
    + simpl. unfold _process_scenario_outline.
      destruct (for_each (_process_scenario strip_escapes str_round6) _ report); simpl;
        [apply IH | reflexivity].
Qed.

Lemma for_each_scenarios scenarios report report' :
  for_each (_process_scenario strip_escapes str_round6) scenarios report = Py.Ok report' ->
  exists cases,
    testcases report' = (testcases report ++ cases)%list
    /\ Forall2 (is_testcase_of str_round6) scenarios cases
    /\ counts_tests report' = counts_tests report + List.length scenarios
    /\ counts_errors report' + counts_failed report'
       <= counts_errors report + counts_failed report + List.length scenarios
    /\ counts_skipped report' <= counts_skipped report + List.length scenarios.
Proof.
  revert report; induction scenarios as [|scenario scenarios IH];
    intros report Hok; simpl in Hok.
  - injection Hok as <-. exists []. rewrite app_nil_r. simpl.
    repeat split; try lia. constructor.
  - destruct (_process_scenario strip_escapes str_round6 scenario report)
      as [report1|msg] eqn:Hstep;
      simpl in Hok; [|discriminate].
    apply process_scenario_step in Hstep.
    destruct Hstep as (case & Hcases & Hcase & Ht & Hef & Hs & _).
    destruct (IH _ Hok) as (cases & Hcases' & Hall & Ht' & Hef' & Hs').
    exists (case :: cases). rewrite Hcases', Hcases, <- app_assoc. simpl.
    repeat split; try lia. constructor; assumption.
Qed.

Lemma for_each_scenarios_ok scenarios report :
  Forall failed_has_failed_step scenarios ->
  exists report',
    for_each (_process_scenario strip_escapes str_round6) scenarios report
    = Py.Ok report'.
Proof.
  intros Hall; revert report.
  induction Hall as [|scenario scenarios Hpre _ IH]; intros report; simpl.
  - eauto.
  - destruct (process_scenario_ok scenario report Hpre) as (report1 & ->).
    simpl. apply IH.
Qed.

(** ** The report of a feature *)

(** C2. Every processed scenario appends one test case and adds one to
    the tests counter; in the report of a feature the tests counter is
    the number of test cases, errors plus failures do not exceed it, and
    neither does the skipped counter. *)
Theorem report_counters_invariant :
  (forall scenario report report',
      _process_scenario strip_escapes str_round6 scenario report = Py.Ok report' ->
      List.length (testcases report') = List.length (testcases report) + 1
      /\ counts_tests report' = counts_tests report + 1)
  /\ (forall config feature report,
        build_report strip_escapes str_round6 config feature = Py.Ok report ->
        counts_tests report = List.length (testcases report)
        /\ counts_errors report + counts_failed report <= counts_tests report
        /\ counts_skipped report <= counts_tests report).
Proof.
  split.
  - intros scenario report report' Hok.
    destruct (process_scenario_step _ _ _ Hok) as (case & -> & _ & Ht & _).
    rewrite length_app. simpl. auto.
  - intros config feature report Hok.
    rewrite build_report_expanded in Hok.
    destruct (for_each_scenarios _ _ _ Hok) as (cases & -> & Hall & Ht & Hef & Hs).
    apply Forall2_length in Hall. simpl in *. lia.
Qed.

(** C7. The report of a feature holds one test case per scenario after
    outline expansion, in the order in which the scenarios are met:
    the scenarios of the feature in order, an outline standing for its
    generated scenarios in their order. *)
Theorem testcases_follow_scenarios config feature report :
  build_report strip_escapes str_round6 config feature = Py.Ok report ->
  List.length (testcases report) = List.length (expanded_scenarios feature)
  /\ counts_tests report = List.length (expanded_scenarios feature)
  /\ Forall2 (is_testcase_of str_round6)
       (expanded_scenarios feature) (testcases report).
Proof.
  intros Hok. rewrite build_report_expanded in Hok.
  destruct (for_each_scenarios _ _ _ Hok) as (cases & -> & Hall & Ht & _).
  simpl in *. split; [symmetry; exact (Forall2_length Hall)|].
  split; assumption.
Qed.

(** C9. A scenario marked failed without a failed step stops processing
    on the assertion and yields no report; a scenario that has a failed
    step whenever it is marked failed is always processed, and so is a
    feature all of whose scenarios are such. *)
Theorem failed_scenario_needs_failed_step :
  (forall scenario report,
      Scenario.status scenario = "failed" ->
      Forall (fun s => Step.status s <> "failed") (Scenario.all_steps scenario) ->
      _process_scenario strip_escapes str_round6 scenario report =
        Py.AssertionFailed "OOPS: No failed step found")
  /\ (forall scenario report,
        failed_has_failed_step scenario ->
        exists report',
          _process_scenario strip_escapes str_round6 scenario report
          = Py.Ok report')
  /\ (forall config feature,
        Forall failed_has_failed_step (expanded_scenarios feature) ->
        exists report,
          build_report strip_escapes str_round6 config feature = Py.Ok report).
Proof.
  split; [|split].
  - intros scenario report Hst Hnone.
    apply process_scenario_failed_no_step; [exact Hst|].
    apply select_step_none, Hnone.
  - intros scenario report. apply process_scenario_ok.
  - intros config feature Hall. rewrite build_report_expanded.
    apply for_each_scenarios_ok, Hall.
Qed.

(** ** The classname *)


Lemma drop_root (root rest : string) (sep : ascii) :
  Py.drop (String.length root + 1) (root ++ String sep rest) = rest.
Proof. induction root as [|c root IH]; simpl; [reflexivity | exact IH]. Qed.

Lemma before_last_absent (sep : ascii) (s : string) :
  Forall (fun c => c <> sep) (list_ascii_of_string s) ->
  Py.before_last sep s = None.
Proof.
  induction s as [|c s IH]; simpl; intros H; [reflexivity|].
  inversion H as [|? ? Hc Hs]; subst. rewrite (IH Hs).
  apply Ascii.eqb_neq in Hc. rewrite Hc. reflexivity.
Qed.

Lemma after_last_absent (sep : ascii) (s : string) :
  Forall (fun c => c <> sep) (list_ascii_of_string s) ->
  Py.after_last sep s = None.
Proof.
  induction s as [|c s IH]; simpl; intros H; [reflexivity|].
  inversion H as [|? ? Hc Hs]; subst. rewrite (IH Hs).
  apply Ascii.eqb_neq in Hc. rewrite Hc. reflexivity.
Qed.

Lemma rsplit1_head_stem (sep : ascii) (stem ext : string) :
  Forall (fun c => c <> sep) (list_ascii_of_string ext) ->
  Py.rsplit1_head sep (stem ++ String sep ext) = stem.
Proof.
  intros Hext. unfold Py.rsplit1_head.
  assert (H : Py.before_last sep (stem ++ String sep ext) = Some stem).
  { induction stem as [|c stem IH]; simpl.
    - rewrite (before_last_absent _ _ Hext), Ascii.eqb_refl. reflexivity.
    - rewrite IH. reflexivity. }
  rewrite H. reflexivity.
Qed.

Lemma os_path_split_tail_base (dir base : string) :
  Forall (fun c => c <> "/"%char) (list_ascii_of_string base) ->
  Py.os_path_split_tail (dir ++ String "/"%char base) = base.
Proof.
  intros Hbase. unfold Py.os_path_split_tail.
  assert (H : Py.after_last "/"%char (dir ++ String "/"%char base) = Some base).
  { induction dir as [|c dir IH]; simpl.
    - rewrite (after_last_absent _ _ Hbase). reflexivity.
    - rewrite IH. reflexivity. }
  rewrite H. reflexivity.
Qed.








(** ** The serializer *)

Lemma process_scenario_output scenario report report' :
  _process_scenario strip_escapes str_round6 scenario report = Py.Ok report' ->
  exists case,
    testcases report' = (testcases report ++ [attach_output scenario case])%list.
Proof.
  intros Hok.
  destruct (string_dec (Scenario.status scenario) "failed") as [Hf|Hf].
  - destruct (select_step_with_status "failed" (Scenario.all_steps scenario))
      as [step|] eqn:Hsel.
    + rewrite (process_scenario_failed _ _ _ Hf Hsel) in Hok. cbv zeta in Hok.
      injection Hok as <-.
      exists (snd (failed_step_report step (incr_tests report)
                     (testcase_of scenario report))).
      unfold report_failed_step.
      destruct (Py.isinstance_AssertionError_or_None _); reflexivity.
    + rewrite (process_scenario_failed_no_step _ _ Hf Hsel) in Hok. discriminate.
  - destruct (string_dec (Scenario.status scenario) "skipped") as [Hs|Hs];
      [|destruct (string_dec (Scenario.status scenario) "untested") as [Hu|Hu]].
    + rewrite (process_scenario_skipped _ _ (or_introl Hs)) in Hok.
      cbv zeta in Hok. injection Hok as <-.
      exists (snd (report_skipped scenario (incr_tests report)
                     (testcase_of scenario report))).
      unfold report_skipped.
      destruct (select_step_with_status "undefined" _); reflexivity.
    + rewrite (process_scenario_skipped _ _ (or_intror Hu)) in Hok.
      cbv zeta in Hok. injection Hok as <-.
      exists (snd (report_skipped scenario (incr_tests report)
                     (testcase_of scenario report))).
      unfold report_skipped.
      destruct (select_step_with_status "undefined" _); reflexivity.
    + rewrite process_scenario_other in Hok by assumption.
      injection Hok as <-. eexists. reflexivity.
Qed.

Lemma attach_output_system_out scenario case captured :
  Scenario.stdout scenario = Some captured ->
  captured <> "" ->
  In (mkElement "system-out" [] None
        [CDATA strip_escapes
           (describe_scenario scenario ++ Py.nl ++ "Captured stdout:" ++ Py.nl
              ++ captured ++ Py.nl)]
        None)
     (children (attach_output scenario case)).
Proof.
  intros Hout Hne. unfold attach_captured_output. rewrite Hout.
  destruct captured as [|c captured]; [contradiction|].
  destruct (Py.truthy (Scenario.stderr scenario)); simpl;
    rewrite ?in_app_iff; simpl; auto.
Qed.

Lemma serialize_cdata_node (elem : Element) (content : string) :
  tag elem = CDATA_tag ->
  text elem = Some content ->
  _serialize_xml elem = Py.nl ++ "<![CDATA[" ++ content ++ "]]>" ++ Py.nl.
Proof.
  destruct elem as [t a x c tl]. simpl. intros -> ->. reflexivity.
Qed.

Lemma serialize_element (elem : Element) :
  tag elem <> CDATA_tag ->
  _serialize_xml elem =
    "<" ++ tag elem
      ++ String.concat ""
           (map (fun kv =>
                   " " ++ fst kv ++ "=" ++ Py.dquote
                     ++ escape_with attribute_entity (snd kv) ++ Py.dquote)
              (sorted_items (attrib elem)))
      ++ (if Py.truthy (text elem) || negb (Nat.eqb (List.length (children elem)) 0)
          then ">" ++ match text elem with
                      | Some content => escape_with text_entity content
                      | None => ""
                      end
                 ++ String.concat "" (map _serialize_xml (children elem))
                 ++ "</" ++ tag elem ++ ">"
          else " />")
      ++ match tail elem with
         | Some content => escape_with text_entity content
         | None => ""
         end.
Proof.
  destruct elem as [t a x c tl]. intros Hne. simpl in Hne.
  apply String.eqb_neq in Hne.
  cbn [_serialize_xml tag]. rewrite Hne.
  unfold orig_serialize_xml, write_opt_text. cbn [tag attrib text children tail].
  rewrite (map_ext write_attrib
             (fun kv => " " ++ fst kv ++ "=" ++ Py.dquote
                          ++ escape_with attribute_entity (snd kv) ++ Py.dquote))
    by (intros kv; unfold write_attrib; rewrite escape_attrib_entities;
        reflexivity).
  destruct x as [content|]; destruct tl as [after|];
    rewrite ?escape_cdata_entities; reflexivity.
Qed.

(** C6. A CDATA node is written as its text between the CDATA markers,
    with no escaping; every other node is written by the standard
    serializer: its attribute values and its text with an entity for
    each of the special characters, its children by the same rule; so
    the [system-out] element of a test case shows the captured standard
    output, special characters included, as it was captured. *)
Theorem cdata_serialized_verbatim :
  (forall elem content,
      tag elem = CDATA_tag ->
      text elem = Some content ->
      _serialize_xml elem = Py.nl ++ "<![CDATA[" ++ content ++ "]]>" ++ Py.nl)
  /\ (forall content,
        _serialize_xml (CDATA strip_escapes content) =
          Py.nl ++ "<![CDATA[" ++ strip_escapes content ++ "]]>" ++ Py.nl)
  /\ (forall elem,
        tag elem <> CDATA_tag ->
        _serialize_xml elem = orig_serialize_xml _serialize_xml elem
        /\ _serialize_xml elem =
             "<" ++ tag elem
               ++ String.concat ""
                    (map (fun kv =>
                            " " ++ fst kv ++ "=" ++ Py.dquote
                              ++ escape_with attribute_entity (snd kv)
                              ++ Py.dquote)
                       (sorted_items (attrib elem)))
               ++ (if Py.truthy (text elem)
                      || negb (Nat.eqb (List.length (children elem)) 0)
                   then ">" ++ match text elem with
                               | Some content => escape_with text_entity content
                               | None => ""
                               end
                          ++ String.concat ""
                               (map _serialize_xml (children elem))
                          ++ "</" ++ tag elem ++ ">"
                   else " />")
               ++ match tail elem with
                  | Some content => escape_with text_entity content
                  | None => ""
                  end)
  /\ (forall scenario report report' captured,
        _process_scenario strip_escapes str_round6 scenario report = Py.Ok report' ->
        Scenario.stdout scenario = Some captured ->
        captured <> "" ->
        let content :=
          describe_scenario scenario ++ Py.nl ++ "Captured stdout:" ++ Py.nl
            ++ captured ++ Py.nl in
        strip_escapes content = content ->
        exists case out,
          testcases report' = (testcases report ++ [case])%list
          /\ In out (children case)
          /\ tag out = "system-out"
          /\ _serialize_xml out =
               "<system-out>" ++ Py.nl ++ "<![CDATA[" ++ content ++ "]]>"
                 ++ Py.nl ++ "</system-out>").
Proof.
  split; [exact serialize_cdata_node|].
  split; [intros content; apply serialize_cdata_node; reflexivity|].
  split.
  - intros elem Hne. split; [|apply serialize_element, Hne].
    destruct elem as [t a x c tl]. simpl in Hne. apply String.eqb_neq in Hne.
    simpl. rewrite Hne. reflexivity.
  - intros scenario report report' captured Hok Hout Hne content Hplain.
    destruct (process_scenario_output _ _ _ Hok) as (case & Hcases).
    do 2 eexists. split; [exact Hcases|].
    split; [exact (attach_output_system_out scenario case captured Hout Hne)|].
    split; [reflexivity|].
    fold content. unfold CDATA. rewrite Hplain.
    change (_serialize_xml
              (mkElement "system-out" [] None
                 [set_text (Element_ CDATA_tag) (Some content)] None))
      with (("<system-out>"
               ++ (Py.nl ++ "<![CDATA[" ++ content ++ "]]>" ++ Py.nl)
               ++ "</system-out>") ++ "").
    rewrite append_nil_r, !append_assoc. reflexivity.
Qed.

End Properties.

(** ** The time attribute *)




(* ================================================================== *)
(** * The properties on the concrete inputs *)
(* ================================================================== *)

Lemma failed_scenario_classification_witness :
  (exists report' case child rest,
      _process_scenario Sample.strip_escapes Sample.str_round6
        Example.login_fails Example.empty_report = Py.Ok report'
      /\ FeatureReportData.testcases report' = [case]
      /\ children case = child :: rest
      /\ tag child = "failure"
      /\ FeatureReportData.counts_failed report' = 1
      /\ FeatureReportData.counts_errors report' = 0)
  /\ (exists report' case child rest,
        _process_scenario Sample.strip_escapes Sample.str_round6
          Example.login_crashes Example.empty_report = Py.Ok report'
        /\ FeatureReportData.testcases report' = [case]
        /\ children case = child :: rest
        /\ tag child = "error"
        /\ FeatureReportData.counts_errors report' = 1
        /\ FeatureReportData.counts_failed report' = 0).
Proof.
  split.
  - destruct (failed_scenario_classification Sample.strip_escapes Sample.str_round6
                Example.login_fails Example.empty_report
                [Example.given_passed] Example.when_failed [Example.then_skipped])
      as (report' & case & child & rest & Hok & Hcases & Hc & _ & _ & _ & Hf & _).
    + reflexivity.
    + reflexivity.
    + repeat constructor; discriminate.
    + reflexivity.
    + destruct Hf as (Ht & Hfailed & Herrors).
      * right. exists (Example.assertion_error "expected 200").
        split; reflexivity.
      * exists report', case, child, rest. repeat split; assumption.
  - destruct (failed_scenario_classification Sample.strip_escapes Sample.str_round6
                Example.login_crashes Example.empty_report
                [Example.given_passed] Example.when_crashed [Example.then_skipped])
      as (report' & case & child & rest & Hok & Hcases & Hc & _ & _ & _ & _ & He).
    + reflexivity.
    + reflexivity.
    + repeat constructor; discriminate.
    + reflexivity.
    + destruct He as (Ht & Herrors & Hfailed).
      * exists (Example.runtime_error Example.long_message). split; reflexivity.
      * exists report', case, child, rest. repeat split; assumption.
Defined.

Lemma failed_step_without_exception_witness :
  exists report' case child rest,
    _process_scenario Sample.strip_escapes Sample.str_round6
      Example.login_fails_bare Example.empty_report = Py.Ok report'
    /\ children case = child :: rest
    /\ tag child = "failure"
    /\ get child "type" = Some "NoneType"
    /\ get child "message" = Some "None".
Proof.
  destruct (failed_step_without_exception Sample.strip_escapes Sample.str_round6
              Example.login_fails_bare Example.empty_report
              [Example.given_passed] Example.when_failed_bare [])
    as (report' & case & child & rest & Hok & _ & Hc & Ht & Hty & Hm & _).
  - reflexivity.
  - reflexivity.
  - repeat constructor; discriminate.
  - reflexivity.
  - reflexivity.
  - exists report', case, child, rest. repeat split; assumption.
Defined.

Lemma failed_scenario_message_witness :
  exists report' case child rest first80 suffix,
    _process_scenario Sample.strip_escapes Sample.str_round6
      Example.login_crashes Example.empty_report = Py.Ok report'
    /\ children case = child :: rest
    /\ Example.long_message = first80 ++ suffix
    /\ String.length first80 = 80
    /\ get child "message" = Some (first80 ++ "...").
Proof.
  destruct (failed_scenario_message Sample.strip_escapes Sample.str_round6
              Example.login_crashes Example.empty_report
              [Example.given_passed] Example.when_crashed [Example.then_skipped])
    as (report' & case & child & rest & body & Hok & _ & Hc & _ & Hlong & _).
  - reflexivity.
  - reflexivity.
  - repeat constructor; discriminate.
  - reflexivity.
  - destruct Hlong as (first80 & suffix & Hm & Hl & Hg).
    + vm_compute. lia.
    + exists report', case, child, rest, first80, suffix.
      repeat split; assumption.
Defined.

Lemma skipped_scenario_report_witness :
  exists report' case child rest,
    _process_scenario Sample.strip_escapes Sample.str_round6
      Example.inbox_undefined Example.empty_report = Py.Ok report'
    /\ children case = child :: rest
    /\ FeatureReportData.counts_skipped report' = 1
    /\ FeatureReportData.counts_failed report' = 1
    /\ child = mkElement "failure"
                 [("type", "undefined");
                  ("message", "Undefined Step: she sees her inbox")]
                 None [] None.
Proof.
  destruct (skipped_scenario_report Sample.strip_escapes Sample.str_round6
              Example.inbox_undefined Example.empty_report)
    as (report' & case & child & rest & Hok & _ & Hc & Hs & _ & Hundef & _).
  - left. reflexivity.
  - destruct (Hundef [Example.given_passed] Example.then_undefined [])
      as (Hf & Hchild).
    + reflexivity.
    + repeat constructor; discriminate.
    + reflexivity.
    + exists report', case, child, rest. repeat split; assumption.
Defined.


Lemma report_counters_invariant_witness :
  exists report,
    build_report Sample.strip_escapes Sample.str_round6
      Example.config Example.login_feature = Py.Ok report
    /\ FeatureReportData.counts_tests report
       = List.length (FeatureReportData.testcases report)
    /\ FeatureReportData.counts_errors report
       + FeatureReportData.counts_failed report
       <= FeatureReportData.counts_tests report
    /\ FeatureReportData.counts_skipped report
       <= FeatureReportData.counts_tests report.
Proof.
  eexists. split.
  - vm_compute. reflexivity.
  - apply (proj2 (report_counters_invariant Sample.strip_escapes Sample.str_round6)
             Example.config Example.login_feature).
    vm_compute. reflexivity.
Defined.

Lemma testcases_follow_scenarios_witness :
  exists report,
    build_report Sample.strip_escapes Sample.str_round6
      Example.config Example.login_feature = Py.Ok report
    /\ List.length (FeatureReportData.testcases report) = 5
    /\ FeatureReportData.counts_tests report = 5
    /\ Forall2 (is_testcase_of Sample.str_round6)
         [Example.login_works; Example.login_fails; Example.login_crashes;
          Example.inbox_undefined; Example.inbox_untested]
         (FeatureReportData.testcases report).
Proof.
  eexists. split.
  - vm_compute. reflexivity.
  - apply (testcases_follow_scenarios Sample.strip_escapes Sample.str_round6
             Example.config Example.login_feature).
    vm_compute. reflexivity.
Defined.

Lemma failed_scenario_needs_failed_step_witness :
  _process_scenario Sample.strip_escapes Sample.str_round6
    Example.failed_without_step Example.empty_report
  = Py.AssertionFailed "OOPS: No failed step found"
  /\ exists report,
       build_report Sample.strip_escapes Sample.str_round6
         Example.config Example.login_feature = Py.Ok report.
Proof.
  destruct (failed_scenario_needs_failed_step Sample.strip_escapes Sample.str_round6)
    as (Hstop & _ & Hfeature).
  split.
  - apply Hstop; [reflexivity | repeat constructor; discriminate].
  - apply Hfeature. simpl.
    repeat (first [apply Forall_nil | apply Forall_cons]); intros H;
      first [discriminate H
            | apply Exists_cons_tl, Exists_cons_hd; reflexivity].
Defined.

Lemma cdata_serialized_verbatim_witness :
  (exists report' case out,
      _process_scenario Sample.strip_escapes Sample.str_round6
        Example.login_works Example.empty_report = Py.Ok report'
      /\ FeatureReportData.testcases report' = [case]
      /\ In out (children case)
      /\ _serialize_xml out =
           "<system-out>" ++ Py.nl
             ++ "<![CDATA[Steps:" ++ Py.nl
             ++ "       Given a user ... passed" ++ Py.nl
             ++ Py.nl ++ "Captured stdout:" ++ Py.nl
             ++ "a<b & " ++ Py.dquote ++ "c" ++ Py.dquote ++ Py.nl
             ++ "]]>" ++ Py.nl ++ "</system-out>")
  /\ _serialize_xml
       (mkElement "failure" [("message", Example.special_text)]
          (Some "x<y & z>0") [] None)
     = "<failure message=" ++ Py.dquote
         ++ "a&lt;b &amp; &quot;c&quot;" ++ Py.dquote
         ++ ">x&lt;y &amp; z&gt;0</failure>".
Proof.
  split.
  - assert (Hrun : exists report',
               _process_scenario Sample.strip_escapes Sample.str_round6
                 Example.login_works Example.empty_report = Py.Ok report')
      by (eexists; vm_compute; reflexivity).
    destruct Hrun as (report' & Hok).
    destruct (proj2 (proj2 (proj2
                (cdata_serialized_verbatim Sample.strip_escapes Sample.str_round6)))
                Example.login_works Example.empty_report report'
                Example.special_text Hok)
      as (case & out & Hcases & Hin & _ & Hser).
    + reflexivity.
    + discriminate.
    + vm_compute. reflexivity.
    + exists report', case, out. repeat split; assumption.
  - destruct (proj1 (proj2 (proj2
                (cdata_serialized_verbatim Sample.strip_escapes Sample.str_round6)))
                (mkElement "failure" [("message", Example.special_text)]
                   (Some "x<y & z>0") [] None)) as (_ & Hser).
    + discriminate.
    + rewrite Hser. reflexivity.
Defined.



(* ================================================================== *)
(** * Further properties of the reporter *)
(* ================================================================== *)

Section MoreProperties.

Variable strip_escapes : string -> string.
Variable str_round6 : float -> string.

Import FeatureReportData.

(** ** Strings *)

Lemma length_append (a b : string) :
  String.length (a ++ b) = String.length a + String.length b.
Proof. induction a as [|c a IH]; simpl; [|rewrite IH]; reflexivity. Qed.

Lemma length_take_le (n : nat) (s : string) : String.length (Py.take n s) <= n.
Proof.
  revert s; induction n as [|n IH]; intros [|c s]; simpl; try lia.
  specialize (IH s). lia.
Qed.

Lemma list_ascii_append (a b : string) :
  list_ascii_of_string (a ++ b)
  = (list_ascii_of_string a ++ list_ascii_of_string b)%list.
Proof. induction a as [|c a IH]; simpl; [|rewrite IH]; reflexivity. Qed.

Lemma absent_append (c : ascii) (a b : string) :
  absent c (a ++ b) <-> absent c a /\ absent c b.
Proof. unfold absent. rewrite list_ascii_append. apply Forall_app. Qed.

Lemma replace_removes (c : ascii) (r s : string) :
  absent c r -> absent c (Py.replace c r s).
Proof.
  intros Hr. induction s as [|x s IH]; simpl; [constructor|].
  destruct (Ascii.eqb_spec x c) as [E|E].
  - apply absent_append. split; assumption.
  - constructor; assumption.
Qed.

Lemma replace_keeps_absent (c d : ascii) (r s : string) :
  absent d r -> absent d s -> absent d (Py.replace c r s).
Proof.
  intros Hr. induction s as [|x s IH]; simpl; intros Hs; [constructor|].
  inversion Hs as [|? ? Hx Hs']; subst.
  destruct (Ascii.eqb x c).
  - apply absent_append. split; [exact Hr | apply IH, Hs'].
  - constructor; [exact Hx | apply IH, Hs'].
Qed.

Lemma replace_absent (c : ascii) (r s : string) :
  absent c s -> Py.replace c r s = s.
Proof.
  induction s as [|x s IH]; simpl; intros Hs; [reflexivity|].
  inversion Hs as [|? ? Hx Hs']; subst.
  apply Ascii.eqb_neq in Hx. rewrite Hx, (IH Hs'). reflexivity.
Qed.

(** ** The linear scan *)

(** X1. [select_step_with_status] returns the first step of the list
    that has the status, and [None] exactly when no step has it. *)
Theorem select_step_with_status_first (status : string) (steps : list Step.t) :
  match select_step_with_status status steps with
  | Some step =>
      exists before after,
        steps = (before ++ step :: after)%list
        /\ Step.status step = status
        /\ Forall (fun s => Step.status s <> status) before
  | None => Forall (fun s => Step.status s <> status) steps
  end.
Proof.
  destruct (select_step_with_status status steps) as [step|] eqn:Hsel.
  - destruct (select_step_first _ _ _ Hsel) as (before & after & H1 & H2 & H3).
    exists before, after. auto.
  - apply select_step_none, Hsel.
Qed.

(** X2. Searching the background steps followed by the steps of the
    scenario is searching the background steps and, only when none of
    them has the status, the steps of the scenario. *)
Theorem select_step_with_status_app (status : string)
    (background steps : list Step.t) :
  select_step_with_status status (background ++ steps)%list =
    match select_step_with_status status background with
    | Some step => Some step
    | None => select_step_with_status status steps
    end.
Proof.
  induction background as [|s background IH]; simpl; [reflexivity|].
  destruct (String.eqb (Step.status s) status); [reflexivity | exact IH].
Qed.

(** ** The description of a scenario *)

Lemma describe_steps_from (steps : list Step.t) (text : string) :
  fold_left
    (fun text step =>
       (text ++ Py.rjust 12 (Step.keyword step) ++ " " ++ Step.name step ++ " ... ")
         ++ Step.status step ++ Py.nl)
    steps text
  = text ++ fold_right String.append "" (map step_line steps).
Proof.
  revert text; induction steps as [|step steps IH]; intros text;
    cbn [fold_left map fold_right].
  - symmetry; apply append_nil_r.
  - rewrite IH. unfold step_line. rewrite !append_assoc. reflexivity.
Qed.

(** X3. The description of a scenario is the header line followed by one
    line per step, in step order: the keyword right-justified in twelve
    columns, the name, and the status. *)
Theorem describe_scenario_lines (scenario : Scenario.t) :
  describe_scenario scenario =
    "Steps:" ++ Py.nl
      ++ fold_right String.append "" (map step_line (Scenario.all_steps scenario)).
Proof.
  unfold describe_scenario. rewrite describe_steps_from.
  rewrite !append_assoc. reflexivity.
Qed.

(** ** What one scenario does to the report *)

Lemma count_cons (p : Scenario.t -> bool) (x : Scenario.t) (l : list Scenario.t) :
  count p (x :: l) = Nat.b2n (p x) + count p l.
Proof. unfold count. simpl. destruct (p x); reflexivity. Qed.

Lemma process_scenario_effect scenario report report' :
  _process_scenario strip_escapes str_round6 scenario report = Py.Ok report' ->
  exists case,
    report' =
      mk (FeatureReportData.feature report) (filename report) (classname report)
         (testcases report ++ [case])
         (counts_tests report + 1)
         (counts_errors report + Nat.b2n (is_error scenario))
         (counts_failed report + Nat.b2n (is_failure scenario)
          + Nat.b2n (is_undefined scenario))
         (counts_skipped report + Nat.b2n (is_skipped scenario))
    /\ is_testcase_of str_round6 scenario case
    /\ attrib case = attrib (new_testcase str_round6 scenario report)
    /\ text case = None
    /\ map tag (children case) =
         (verdict scenario
            ++ "system-out" :: (if Py.truthy (Scenario.stderr scenario)
                                then ["system-err"] else []))%list.
Proof.
  intros Hok. destruct report as [f fn cn cases t e fl sk].
  unfold verdict, is_error, is_failure, is_undefined, is_skipped, is_failed.
  destruct (String.eqb_spec (Scenario.status scenario) "failed") as [Hf|Hf].
  - assert (Hs : String.eqb (Scenario.status scenario) "skipped" = false)
      by (rewrite Hf; reflexivity).
    assert (Hu : String.eqb (Scenario.status scenario) "untested" = false)
      by (rewrite Hf; reflexivity).
    rewrite Hs, Hu.
    destruct (select_step_with_status "failed" (Scenario.all_steps scenario))
      as [step|] eqn:Hsel.
    + destruct (failed_scenario_shape strip_escapes str_round6 scenario
                  (mk f fn cn cases t e fl sk) step Hf Hsel)
        as (out & Htags & Heq).
      rewrite Heq in Hok. injection Hok as <-.
      destruct (Py.isinstance_AssertionError_or_None (Step.exception step));
        eexists; (split; [simpl; rewrite ?Nat.add_0_r; reflexivity|]);
        (split; [repeat split|]); (split; [reflexivity|]);
        (split; [reflexivity|]); simpl; rewrite Htags; reflexivity.
    + rewrite (process_scenario_failed_no_step strip_escapes str_round6
                 _ _ Hf Hsel) in Hok. discriminate.
  - destruct (String.eqb_spec (Scenario.status scenario) "skipped") as [Hs|Hs];
      [|destruct (String.eqb_spec (Scenario.status scenario) "untested")
          as [Hu|Hu]].
    + destruct (skipped_scenario_shape strip_escapes str_round6 scenario
                  (mk f fn cn cases t e fl sk) (or_introl Hs))
        as (out & Htags & Heq).
      rewrite Heq in Hok. injection Hok as <-.
      destruct (select_step_with_status "undefined" _);
        eexists; (split; [simpl; rewrite ?Nat.add_0_r; reflexivity|]);
        (split; [repeat split|]); (split; [reflexivity|]);
        (split; [reflexivity|]); simpl; rewrite Htags; reflexivity.
    + destruct (skipped_scenario_shape strip_escapes str_round6 scenario
                  (mk f fn cn cases t e fl sk) (or_intror Hu))
        as (out & Htags & Heq).
      rewrite Heq in Hok. injection Hok as <-.
      destruct (select_step_with_status "undefined" _);
        eexists; (split; [simpl; rewrite ?Nat.add_0_r; reflexivity|]);
        (split; [repeat split|]); (split; [reflexivity|]);
        (split; [reflexivity|]); simpl; rewrite Htags; reflexivity.
    + rewrite process_scenario_other in Hok by assumption.
      injection Hok as <-.
      destruct (attach_output_spec strip_escapes scenario
                  (new_testcase str_round6 scenario (mk f fn cn cases t e fl sk)))
        as (out & -> & Htags).
      eexists; (split; [simpl; rewrite ?Nat.add_0_r; reflexivity|]);
        (split; [repeat split|]); (split; [reflexivity|]);
        (split; [reflexivity|]); simpl; rewrite Htags; reflexivity.
Qed.

Lemma for_each_scenarios_effect scenarios report report' :
  for_each (_process_scenario strip_escapes str_round6) scenarios report
  = Py.Ok report' ->
  exists cases,
    report' =
      mk (FeatureReportData.feature report) (filename report) (classname report)
         (testcases report ++ cases)
         (counts_tests report + List.length scenarios)
         (counts_errors report + count is_error scenarios)
         (counts_failed report + count is_failure scenarios
          + count is_undefined scenarios)
         (counts_skipped report + count is_skipped scenarios)
    /\ Forall2 (is_testcase_of str_round6) scenarios cases
    /\ Forall
         (fun case =>
            get case "classname" =
              Some (Py.str_opt (classname report) ++ "."
                      ++ Py.or_else
                           (Feature.name (FeatureReportData.feature report))
                           (Feature.filename (FeatureReportData.feature report))))
         cases.
Proof.
  revert report; induction scenarios as [|scenario scenarios IH];
    intros report Hok; simpl in Hok.
  - injection Hok as <-. exists []. split; [|split; constructor].
    destruct report. unfold count. simpl.
    rewrite app_nil_r, !Nat.add_0_r. reflexivity.
  - destruct (_process_scenario strip_escapes str_round6 scenario report)
      as [report1|msg] eqn:Hstep; simpl in Hok; [|discriminate].
    destruct (process_scenario_effect _ _ _ Hstep)
      as (case & -> & Hcase & Hattrib & _).
    destruct (IH _ Hok) as (cases & -> & Hall & Hclass).
    exists (case :: cases). split; [|split].
    + simpl. rewrite !count_cons, <- app_assoc. simpl. f_equal; lia.
    + constructor; assumption.
    + constructor; [|exact Hclass].
      unfold get. rewrite Hattrib. reflexivity.
Qed.

Lemma verdict_cases scenario :
  verdict scenario = [] \/ verdict scenario = ["failure"]
  \/ verdict scenario = ["error"] \/ verdict scenario = ["skipped"].
Proof.
  unfold verdict.
  destruct (is_error scenario); [auto|].
  destruct (is_failure scenario || is_undefined scenario); [auto|].
  destruct (is_skipped scenario); auto.
Qed.

(** X4. Whatever the status of the scenario, its test case has the four
    attributes [classname], [name], [status] and [time], no text, at
    most one child among [failure], [error] and [skipped], which comes
    first, then one [system-out] child, then a [system-err] child exactly
    when the scenario captured standard error. *)
Theorem testcase_structure scenario report report' :
  _process_scenario strip_escapes str_round6 scenario report = Py.Ok report' ->
  exists case,
    testcases report' = (testcases report ++ [case])%list
    /\ tag case = "testcase"
    /\ map fst (attrib case) = ["classname"; "name"; "status"; "time"]
    /\ get case "classname" =
         Some (Py.str_opt (classname report) ++ "."
                 ++ Py.or_else (Feature.name (FeatureReportData.feature report))
                      (Feature.filename (FeatureReportData.feature report)))
    /\ text case = None
    /\ map tag (children case) =
         (verdict scenario
            ++ "system-out" :: (if Py.truthy (Scenario.stderr scenario)
                                then ["system-err"] else []))%list
    /\ (verdict scenario = [] \/ verdict scenario = ["failure"]
        \/ verdict scenario = ["error"] \/ verdict scenario = ["skipped"]).
Proof.
  intros Hok.
  destruct (process_scenario_effect _ _ _ Hok)
    as (case & -> & (Htag & _) & Hattrib & Htext & Hchildren).
  exists case. split; [reflexivity|]. split; [exact Htag|].
  unfold get. rewrite Hattrib.
  split; [reflexivity|]. split; [reflexivity|]. split; [exact Htext|].
  split; [exact Hchildren | apply verdict_cases].
Qed.

(** X5. The message attribute of the failure or error child of a failed
    scenario never has more than 83 characters. *)
Theorem failed_message_bounded scenario report step :
  Scenario.status scenario = "failed" ->
  select_step_with_status "failed" (Scenario.all_steps scenario) = Some step ->
  exists report' case child rest message,
    _process_scenario strip_escapes str_round6 scenario report = Py.Ok report'
    /\ testcases report' = (testcases report ++ [case])%list
    /\ children case = child :: rest
    /\ get child "message" = Some message
    /\ String.length message <= 83.
Proof.
  intros Hst Hsel.
  destruct (failed_scenario_shape strip_escapes str_round6 scenario report step
              Hst Hsel) as (out & _ & ->).
  destruct (Py.isinstance_AssertionError_or_None (Step.exception step));
    do 5 eexists; (split; [reflexivity|]); (split; [reflexivity|]);
    (split; [reflexivity|]); (split; [reflexivity|]);
    destruct (Nat.ltb_spec 80 (String.length (Py.str_exc (Step.exception step))));
    try lia; rewrite length_append;
    pose proof (length_take_le 80 (Py.str_exc (Step.exception step)));
    change (String.length "...") with 3; lia.
Qed.

(** ** The counters of a feature *)

(** X6. In the report of a feature the four counters count scenarios
    after outline expansion: tests all of them, errors the failed ones
    whose first failed step carries an exception other than an
    [AssertionError], failures the other failed ones and the skipped or
    untested ones with an undefined step, skipped the skipped or
    untested ones. *)
Theorem feature_counters_exact config feature report :
  build_report strip_escapes str_round6 config feature = Py.Ok report ->
  let scenarios := expanded_scenarios feature in
  counts_tests report = List.length scenarios
  /\ counts_errors report = count is_error scenarios
  /\ counts_failed report = count is_failure scenarios + count is_undefined scenarios
  /\ counts_skipped report = count is_skipped scenarios.
Proof.
  intros Hok scenarios. rewrite build_report_expanded in Hok.
  destruct (for_each_scenarios_effect _ _ _ Hok) as (cases & -> & _).
  repeat split.
Qed.

Lemma count_le_length (p : Scenario.t -> bool) (l : list Scenario.t) :
  count p l <= List.length l.
Proof. apply filter_length_le. Qed.




(** X8. [reset] after the scenarios of a feature have been processed
    gives back the report the processing started from. *)
Theorem reset_after_build config feature report :
  build_report strip_escapes str_round6 config feature = Py.Ok report ->
  reset report =
    FeatureReportData.init feature (make_feature_filename config feature) None.
Proof.
  intros Hok. rewrite build_report_expanded in Hok.
  destruct (for_each_scenarios_effect _ _ _ Hok) as (cases & -> & _).
  reflexivity.
Qed.

(** X9. Processing a scenario outline appends one test case per
    generated scenario, in their order, behind the test cases the report
    already has; it changes neither the feature nor the names of the
    report, and no counter decreases.  An outline without generated
    scenarios leaves the report as it is. *)
Theorem scenario_outline_appends scenario_outline report report' :
  _process_scenario_outline strip_escapes str_round6 scenario_outline report
  = Py.Ok report' ->
  (exists cases,
      testcases report' = (testcases report ++ cases)%list
      /\ Forall2 (is_testcase_of str_round6)
           (ScenarioOutline.scenarios scenario_outline) cases)
  /\ FeatureReportData.feature report' = FeatureReportData.feature report
  /\ filename report' = filename report
  /\ classname report' = classname report
  /\ counts_tests report' =
       counts_tests report
       + List.length (ScenarioOutline.scenarios scenario_outline)
  /\ counts_errors report <= counts_errors report'
  /\ counts_failed report <= counts_failed report'
  /\ counts_skipped report <= counts_skipped report'
  /\ (ScenarioOutline.scenarios scenario_outline = [] -> report' = report).
Proof.
  unfold _process_scenario_outline. intros Hok.
  destruct (for_each_scenarios_effect _ _ _ Hok) as (cases & Heq & Hall & _).
  split; [exists cases; rewrite Heq; split; [reflexivity | exact Hall]|].
  rewrite Heq. simpl. repeat split; try lia.
  intros Hnil. rewrite Hnil in Hok. simpl in Hok. congruence.
Qed.

(** ** The name of the report *)

Lemma absent_dot_in_slash : absent "/"%char ".".
Proof. repeat constructor; discriminate. Qed.

Lemma make_feature_filename_absent_slash config feature :
  absent "/"%char (make_feature_filename config feature).
Proof.
  unfold make_feature_filename. apply replace_removes, absent_dot_in_slash.
Qed.

(** X10. The name derived from a feature file holds no path separator,
    neither a slash nor a backslash. *)
Theorem feature_filename_no_separator config feature :
  absent "/"%char (make_feature_filename config feature)
  /\ absent "\"%char (make_feature_filename config feature).
Proof.
  split; [apply make_feature_filename_absent_slash|].
  unfold make_feature_filename. apply replace_keeps_absent.
  - repeat constructor; discriminate.
  - apply replace_removes. repeat constructor; discriminate.
Qed.

Lemma endswith_char_split (c : ascii) (s : string) :
  Py.endswith_char c s = true -> exists d, s = d ++ String c "".
Proof.
  induction s as [|a s IH]; simpl; [discriminate|].
  destruct s as [|b s].
  - intros H. apply Ascii.eqb_eq in H. subst. exists "". reflexivity.
  - intros H. destruct (IH H) as (d & Hd). exists (String a d).
    rewrite Hd. reflexivity.
Qed.

(** X11. The report of a feature is written to a file directly inside
    the configured directory: the path is that directory, a slash unless
    the directory is empty or ends with one, and a file name
    [TESTS-<name>.xml] that holds no slash. *)
Theorem report_file_in_junit_directory config feature :
  let name := "TESTS-" ++ make_feature_filename config feature ++ ".xml" in
  Py.os_path_split_tail (report_filename config feature) = name
  /\ absent "/"%char name
  /\ (report_filename config feature = Config.junit_directory config ++ name
      \/ report_filename config feature
         = Config.junit_directory config ++ "/" ++ name).
Proof.
  intros name.
  assert (Hname : absent "/"%char name).
  { unfold name. apply absent_append. split; [repeat constructor; discriminate|].
    apply absent_append. split; [apply make_feature_filename_absent_slash|].
    repeat constructor; discriminate. }
  split; [|split; [exact Hname|]].
  - unfold report_filename, Py.os_path_join. fold name.
    change (Py.startswith name "/") with false. cbv iota.
    destruct (String.eqb_spec (Config.junit_directory config) "") as [E|E].
    + rewrite E. simpl. unfold Py.os_path_split_tail.
      rewrite (after_last_absent _ _ Hname). reflexivity.
    + simpl.
      destruct (Py.endswith_char "/"%char (Config.junit_directory config)) eqn:Hend.
      * destruct (endswith_char_split _ _ Hend) as (d & ->).
        rewrite append_assoc. apply os_path_split_tail_base, Hname.
      * apply (os_path_split_tail_base (Config.junit_directory config) name Hname).
  - unfold report_filename, Py.os_path_join. fold name.
    change (Py.startswith name "/") with false. cbv iota.
    destruct (String.eqb (Config.junit_directory config) ""
              || Py.endswith_char "/"%char (Config.junit_directory config));
      auto.
Qed.

Lemma prefix_append (root rest : string) : String.prefix root (root ++ rest) = true.
Proof.
  induction root as [|c root IH]; simpl; [destruct rest; reflexivity|].
  destruct (ascii_dec c c); [exact IH | contradiction].
Qed.

Lemma make_feature_filename_single_root root sep stem ext junit_directory feature :
  Feature.filename feature = root ++ String sep (stem ++ "." ++ ext) ->
  absent "."%char ext ->
  make_feature_filename (Config.mk [root] junit_directory) feature
  = separators_to_dots stem.
Proof.
  intros Hname Hext. unfold make_feature_filename. simpl.
  unfold Py.startswith. rewrite Hname, prefix_append, drop_root.
  change (stem ++ "." ++ ext) with (stem ++ String "."%char ext).
  rewrite (rsplit1_head_stem _ _ _ Hext). reflexivity.
Qed.

(** X12. Two feature files below the same search root get the same
    report name when their paths differ only in a separator standing
    where the other has a dot: [x/y.feature] and [x.y.feature]. *)
Theorem report_name_collision root x y ext junit_directory feature1 feature2 :
  absent "."%char ext ->
  Feature.filename feature1 = root ++ "/" ++ x ++ "/" ++ y ++ "." ++ ext ->
  Feature.filename feature2 = root ++ "/" ++ x ++ "." ++ y ++ "." ++ ext ->
  make_feature_filename (Config.mk [root] junit_directory) feature1
  = make_feature_filename (Config.mk [root] junit_directory) feature2.
Proof.
  intros Hext H1 H2.
  rewrite (make_feature_filename_single_root root "/"%char (x ++ "/" ++ y) ext
             junit_directory feature1)
    by (rewrite ?append_assoc; assumption).
  rewrite (make_feature_filename_single_root root "/"%char (x ++ "." ++ y) ext
             junit_directory feature2)
    by (rewrite ?append_assoc; assumption).
  unfold separators_to_dots. rewrite !replace_append. reflexivity.
Qed.

End MoreProperties.

Section SuiteProperties.

Variable strip_escapes : string -> string.
Variable str_round6 : float -> string.

(** ** The test suite element *)

Lemma fold_left_append (cases : list Element) (elem : Element) :
  fold_left append cases elem =
    mkElement (tag elem) (attrib elem) (text elem)
      (children elem ++ cases) (tail elem).
Proof.
  revert elem; induction cases as [|case cases IH]; intros [t a x c tl]; simpl.
  - rewrite app_nil_r. reflexivity.
  - rewrite IH. simpl. rewrite <- app_assoc. reflexivity.
Qed.

Lemma feature_suite_shape config f report :
  build_report strip_escapes str_round6 config f = Py.Ok report ->
  feature strip_escapes str_round6 config f =
    Py.Ok ("TESTS-" ++ make_feature_filename config f ++ ".xml",
           mkElement "testsuite"
             [("name", make_feature_filename config f ++ "."
                         ++ Py.or_else (Feature.name f) (Feature.filename f));
              ("tests", Py.str_int (FeatureReportData.counts_tests report));
              ("errors", Py.str_int (FeatureReportData.counts_errors report));
              ("failures", Py.str_int (FeatureReportData.counts_failed report));
              ("skipped", Py.str_int (FeatureReportData.counts_skipped report));
              ("time", str_round6 (Feature.duration f))]
             None (FeatureReportData.testcases report) None).
Proof.
  intros Hbuild. unfold feature. rewrite Hbuild. unfold Py.bind.
  rewrite fold_left_append. reflexivity.
Qed.

Lemma int_of_str_int (n : nat) : int_of_str (Py.str_int n) = Some n.
Proof.
  unfold int_of_str, Py.str_int.
  pose proof (Unsigned.of_to n) as Hn.
  destruct (Nat.to_uint n) eqn:E.
  1: { simpl in Hn. subst. reflexivity. }
  all: rewrite NilZero.usu by discriminate; simpl option_map; rewrite Hn;
    reflexivity.
Qed.

(** X13. In the [testsuite] element that [feature] builds, the children
    are the test cases of the scenarios after outline expansion, in
    order, and the attributes [tests], [errors], [failures] and
    [skipped] are decimal numerals: [tests] denotes the number of
    children, the other three the numbers of scenarios counted as
    errors, as failures and as skipped. *)
Theorem feature_testsuite config f file suite :
  feature strip_escapes str_round6 config f = Py.Ok (file, suite) ->
  file = "TESTS-" ++ make_feature_filename config f ++ ".xml"
  /\ tag suite = "testsuite"
  /\ Forall2 (is_testcase_of str_round6) (expanded_scenarios f) (children suite)
  /\ (exists tests,
        get suite "tests" = Some tests
        /\ int_of_str tests = Some (List.length (children suite)))
  /\ (exists errors,
        get suite "errors" = Some errors
        /\ int_of_str errors = Some (count is_error (expanded_scenarios f)))
  /\ (exists failures,
        get suite "failures" = Some failures
        /\ int_of_str failures =
             Some (count is_failure (expanded_scenarios f)
                   + count is_undefined (expanded_scenarios f)))
  /\ (exists skipped,
        get suite "skipped" = Some skipped
        /\ int_of_str skipped = Some (count is_skipped (expanded_scenarios f))).
Proof.
  intros Hfeature.
  destruct (build_report strip_escapes str_round6 config f) as [report|msg]
    eqn:Hbuild.
  2: { unfold feature in Hfeature. rewrite Hbuild in Hfeature. discriminate. }
  rewrite (feature_suite_shape _ _ _ Hbuild) in Hfeature.
  injection Hfeature as <- <-.
  rewrite build_report_expanded in Hbuild.
  destruct (for_each_scenarios_effect _ _ _ _ _ Hbuild) as (cases & -> & Hall & _).
  cbn [children tag FeatureReportData.testcases FeatureReportData.init app].
  split; [reflexivity|]. split; [reflexivity|]. split; [exact Hall|].
  unfold get. cbn [attrib dict_get String.eqb Ascii.eqb Bool.eqb].
  cbn [FeatureReportData.counts_tests FeatureReportData.counts_errors
       FeatureReportData.counts_failed FeatureReportData.counts_skipped
       FeatureReportData.init].
  rewrite <- (Forall2_length Hall).
  repeat split; eexists; (split; [reflexivity | apply int_of_str_int]).
Qed.

Lemma init_classname_derived (f : Feature.t) (name : string) :
  name <> "" ->
  FeatureReportData.classname (FeatureReportData.init f name None)
  = Some (Py.replace "/"%char "." name).
Proof. destruct name as [|c name]; [contradiction | reflexivity]. Qed.

(** X14. When the name derived from the feature file is not empty, the
    [classname] attribute of every test case is the [name] attribute of
    the test suite.  When it is empty the report has no classname: the
    test cases get [None] in its place and the suite the empty string. *)
Theorem testcase_classname_is_suite_name config f file suite :
  feature strip_escapes str_round6 config f = Py.Ok (file, suite) ->
  let title := Py.or_else (Feature.name f) (Feature.filename f) in
  (make_feature_filename config f <> "" ->
   Forall (fun case => get case "classname" = get suite "name") (children suite))
  /\ (make_feature_filename config f = "" ->
      get suite "name" = Some ("." ++ title)
      /\ Forall (fun case => get case "classname" = Some ("None." ++ title))
           (children suite)).
Proof.
  intros Hfeature title.
  destruct (build_report strip_escapes str_round6 config f) as [report|msg]
    eqn:Hbuild.
  2: { unfold feature in Hfeature. rewrite Hbuild in Hfeature. discriminate. }
  rewrite (feature_suite_shape _ _ _ Hbuild) in Hfeature.
  injection Hfeature as <- <-.
  rewrite build_report_expanded in Hbuild.
  destruct (for_each_scenarios_effect _ _ _ _ _ Hbuild) as (cases & -> & _ & Hclass).
  simpl children. unfold get at 2 4. simpl dict_get.
  split.
  - intros Hname.
    rewrite (init_classname_derived _ _ Hname) in Hclass.
    rewrite (replace_absent _ _ _ (make_feature_filename_absent_slash config f))
      in Hclass.
    exact Hclass.
  - intros Hname. rewrite Hname in *.
    split; [reflexivity | exact Hclass].
Qed.

(** ** A fresh report *)

(** X16. A fresh report has no test cases and all counters at zero.  A
    classname that is given and not empty is kept; without one the
    classname is the file name with dots for slashes, hence without a
    slash; with neither, the report has no classname. *)
Theorem init_classname (f : Feature.t) (name : string) (given : option string) :
  let report := FeatureReportData.init f name given in
  FeatureReportData.testcases report = []
  /\ FeatureReportData.counts_tests report = 0
  /\ FeatureReportData.counts_errors report = 0
  /\ FeatureReportData.counts_failed report = 0
  /\ FeatureReportData.counts_skipped report = 0
  /\ (Py.truthy given = true -> FeatureReportData.classname report = given)
  /\ (Py.truthy given = false -> name <> "" ->
      FeatureReportData.classname report = Some (Py.replace "/"%char "." name)
      /\ absent "/"%char (Py.replace "/"%char "." name))
  /\ (Py.truthy given = false -> name = "" ->
      FeatureReportData.classname report = given).
Proof.
  intros report. do 5 (split; [reflexivity|]).
  unfold report, FeatureReportData.init. split; [|split].
  - intros ->. reflexivity.
  - intros -> Hname. destruct name as [|c name]; [contradiction|].
    split; [reflexivity | apply replace_removes, absent_dot_in_slash].
  - intros -> ->. reflexivity.
Qed.

End SuiteProperties.

(* ================================================================== *)
(** * The further properties on the concrete inputs *)
(* ================================================================== *)

Lemma testcase_structure_witness :
  exists report' case,
    _process_scenario Sample.strip_escapes Sample.str_round6
      Example.login_crashes Example.empty_report = Py.Ok report'
    /\ FeatureReportData.testcases report' = [case]
    /\ map fst (attrib case) = ["classname"; "name"; "status"; "time"]
    /\ get case "classname" = Some "a.b.Login"
    /\ map tag (children case) = ["error"; "system-out"; "system-err"].
Proof.
  assert (Hrun : exists report',
             _process_scenario Sample.strip_escapes Sample.str_round6
               Example.login_crashes Example.empty_report = Py.Ok report')
    by (eexists; vm_compute; reflexivity).
  destruct Hrun as (report' & Hok).
  destruct (testcase_structure Sample.strip_escapes Sample.str_round6
              Example.login_crashes Example.empty_report report' Hok)
    as (case & Hcases & _ & Hattrib & Hclass & _ & Hchildren & _).
  exists report', case. repeat split; assumption.
Defined.

Lemma failed_message_bounded_witness :
  exists report' case child rest message,
    _process_scenario Sample.strip_escapes Sample.str_round6
      Example.login_crashes Example.empty_report = Py.Ok report'
    /\ children case = child :: rest
    /\ get child "message" = Some message
    /\ String.length message <= 83.
Proof.
  destruct (failed_message_bounded Sample.strip_escapes Sample.str_round6
              Example.login_crashes Example.empty_report Example.when_crashed)
    as (report' & case & child & rest & message & Hok & _ & Hc & Hm & Hlen).
  - reflexivity.
  - reflexivity.
  - exists report', case, child, rest, message. repeat split; assumption.
Defined.

Lemma feature_counters_exact_witness :
  exists report,
    build_report Sample.strip_escapes Sample.str_round6
      Example.config Example.login_feature = Py.Ok report
    /\ FeatureReportData.counts_tests report = 5
    /\ FeatureReportData.counts_errors report = 1
    /\ FeatureReportData.counts_failed report = 1 + 1
    /\ FeatureReportData.counts_skipped report = 2.
Proof.
  eexists. split.
  - vm_compute. reflexivity.
  - apply (feature_counters_exact Sample.strip_escapes Sample.str_round6
             Example.config Example.login_feature).
    vm_compute. reflexivity.
Defined.


Lemma reset_after_build_witness :
  exists report,
    build_report Sample.strip_escapes Sample.str_round6
      Example.config Example.login_feature = Py.Ok report
    /\ FeatureReportData.reset report = Example.empty_report.
Proof.
  eexists. split.
  - vm_compute. reflexivity.
  - apply (reset_after_build Sample.strip_escapes Sample.str_round6
             Example.config Example.login_feature).
    vm_compute. reflexivity.
Defined.

Lemma scenario_outline_appends_witness :
  exists report',
    _process_scenario_outline Sample.strip_escapes Sample.str_round6
      Example.login_outline Example.empty_report = Py.Ok report'
    /\ FeatureReportData.counts_tests report' = 2
    /\ FeatureReportData.classname report' = Some "a.b".
Proof.
  assert (Hrun : exists report',
             _process_scenario_outline Sample.strip_escapes Sample.str_round6
               Example.login_outline Example.empty_report = Py.Ok report')
    by (eexists; vm_compute; reflexivity).
  destruct Hrun as (report' & Hok).
  destruct (scenario_outline_appends Sample.strip_escapes Sample.str_round6
              Example.login_outline Example.empty_report report' Hok)
    as (_ & _ & _ & Hclass & Htests & _).
  exists report'. split; [exact Hok|]. split; [exact Htests | exact Hclass].
Defined.

Lemma report_name_collision_witness :
  make_feature_filename (Config.mk ["features"] "reports") Example.login_feature
  = make_feature_filename (Config.mk ["features"] "reports")
      (Feature.mk (Some "Other") "features/a.b.feature" 0%float []).
Proof.
  apply (report_name_collision "features" "a" "b" "feature" "reports"
           Example.login_feature
           (Feature.mk (Some "Other") "features/a.b.feature" 0%float [])).
  - repeat constructor; discriminate.
  - reflexivity.
  - reflexivity.
Defined.

Lemma feature_testsuite_witness :
  exists suite,
    feature Sample.strip_escapes Sample.str_round6
      Example.config Example.login_feature = Py.Ok ("TESTS-a.b.xml", suite)
    /\ get suite "tests" = Some "5"
    /\ get suite "errors" = Some "1"
    /\ get suite "failures" = Some "2"
    /\ get suite "skipped" = Some "2"
    /\ Forall2 (is_testcase_of Sample.str_round6)
         [Example.login_works; Example.login_fails; Example.login_crashes;
          Example.inbox_undefined; Example.inbox_untested]
         (children suite).
Proof.
  eexists. split; [vm_compute; reflexivity|].
  do 4 (split; [reflexivity|]).
  apply (feature_testsuite Sample.strip_escapes Sample.str_round6
           Example.config Example.login_feature "TESTS-a.b.xml").
  vm_compute. reflexivity.
Defined.

Lemma testcase_classname_is_suite_name_witness :
  exists file suite,
    feature Sample.strip_escapes Sample.str_round6
      Example.config Example.login_feature = Py.Ok (file, suite)
    /\ Forall (fun case => get case "classname" = get suite "name")
         (children suite).
Proof.
  assert (Hrun : exists file suite,
             feature Sample.strip_escapes Sample.str_round6
               Example.config Example.login_feature = Py.Ok (file, suite))
    by (do 2 eexists; vm_compute; reflexivity).
  destruct Hrun as (file & suite & Hfeature).
  exists file, suite. split; [exact Hfeature|].
  apply (testcase_classname_is_suite_name Sample.strip_escapes Sample.str_round6
           Example.config Example.login_feature file suite Hfeature).
  discriminate.
Defined.

Lemma init_classname_witness :
  FeatureReportData.classname
    (FeatureReportData.init Example.login_feature "a/b" None) = Some "a.b"
  /\ FeatureReportData.classname
       (FeatureReportData.init Example.login_feature "" None) = None.
Proof.
  split.
  - apply (init_classname Example.login_feature "a/b" None);
      [reflexivity | discriminate].
  - apply (init_classname Example.login_feature "" None); reflexivity.
Defined.
